(** * Document page classification: similarity strategy, vision strategy,
      evaluation and persistence

    A shallow embedding of the decision logic of the two classification
    notebooks, [samples/classification/document-intelligence-embeddings.ipynb]
    (similarity strategy) and [samples/classification/openai.ipynb] (vision
    strategy).

    Conventions of the embedding.
    - Python floats that carry similarities, confidences and accuracies are
      rationals ([Q]); comparisons are [Qle_bool].  The finite floats the
      notebooks compare are totally ordered, which is all the decision logic
      uses.
    - A raised Python exception is the [Raise] case of [result]; a cell
      sequence is a bind chain, so a raise in one cell skips the later ones.
    - Names that a cell reads and that an earlier iteration may or may not
      have bound are kept in an explicit environment ([Env]); reading an
      unbound one raises [NameError].
    - The result file lives in a file system, a map from paths to
      contents; [open(path, "w")] empties the file before the serialiser
      runs, and the cell goes on after the write.
    - External collaborators (embedding provider, layout analysis,
      rasterizer, completion provider, scikit-learn's pairwise kernel,
      [str] on a float, JSON rendering) are [Variable]s of a [Section]. *)

From Stdlib Require Import QArith.
From stdpp Require Import gmap strings pretty list fin_maps.

Local Open Scope string_scope.
Local Open Scope list_scope.

(** ** Exceptions and the error monad *)

Inductive PyError : Type :=
| NameError (name : string)
| ValueError
| IndexError
| ZeroDivisionError
| AttributeError (attribute : string)
| KeyError (key : string)
| NotFoundError (page : Z)
| ProviderError (msg : string).

Inductive result (A : Type) : Type :=
| OK (a : A)
| Raise (e : PyError).

Arguments OK {A} a.
Arguments Raise {A} e.

Definition bind {A B : Type} (r : result A) (k : A -> result B) : result B :=
  match r with
  | OK a => k a
  | Raise e => Raise e
  end.

Declare Scope py_scope.
Delimit Scope py_scope with py.
Notation "'do' x <- r ; k" := (bind r (fun x => k))
  (at level 10, x name, r at level 100, k at level 200) : py_scope.
Local Open Scope py_scope.

Definition is_ok {A : Type} (r : result A) : bool :=
  match r with OK _ => true | Raise _ => false end.

(** Reading a module-level name that may not have been bound yet. *)
Definition read_var {A : Type} (name : string) (v : option A) : result A :=
  match v with
  | Some a => OK a
  | None => Raise (NameError name)
  end.

(** ** Data model ([modules.classification], as the notebooks use it) *)

(** One element of [all_similarities]: the dict
    [{"classification": ..., "similarity": str(sim)}]. *)
Record SimilarityEntry : Type := mkSimilarityEntry {
  se_classification : string;
  se_similarity : string
}.

Record Classification : Type := mkClassification {
  page_number : Z;
  classification : string;
  similarity : Q;
  all_similarities : list SimilarityEntry
}.

Record Classifications : Type := mkClassifications {
  classifications : list Classification
}.

(** A category definition of cell 9, and the same dict once cell 16 has
    stored its ['embedding'] key. *)
Record CategoryDef : Type := mkCategoryDef {
  def_classification : string;
  def_description : string;
  def_keywords : list string
}.

Record Category : Type := mkCategory {
  cat_def : CategoryDef;
  cat_embedding : list Q
}.

Definition cat_classification (c : Category) : string :=
  def_classification (cat_def c).

Definition Unclassified : string := "Unclassified".

(** ** numpy helpers *)

(** [np.argmax] on a one-dimensional array: the index of the first
    occurrence of the maximum; an empty array raises [ValueError]. *)
Fixpoint argmax_from (best_i : nat) (best : Q) (i : nat) (l : list Q) : nat :=
  match l with
  | [] => best_i
  | x :: l' =>
      if Qle_bool x best
      then argmax_from best_i best (S i) l'
      else argmax_from i x (S i) l'
  end.

Definition argmax (l : list Q) : result nat :=
  match l with
  | [] => Raise ValueError
  | x :: l' => OK (argmax_from 0 x 1 l')
  end.

(** [np.array] on a list of rows (numpy 1.24 and later, as the Python 3.12
    kernel of the notebooks needs): rows of different lengths raise
    [ValueError]; an empty list and rows without elements do not. *)
Definition rectangular (rows : list (list Q)) : bool :=
  match rows with
  | [] => true
  | row :: rest =>
      forallb (fun row' => Nat.eqb (length row') (length row)) rest
  end.

Definition np_array (rows : list (list Q)) : result (list (list Q)) :=
  if rectangular rows then OK rows else Raise ValueError.

(** [best] is the maximum of [l] and [j] is the first index that holds it. *)
Definition first_max (l : list Q) (j : nat) (best : Q) : Prop :=
  l !! j = Some best /\
  (forall k y, l !! k = Some y -> (y <= best)%Q) /\
  (forall k y, k < j -> l !! k = Some y -> (y < best)%Q).

(** Indexing a Python list or array with a non-negative index. *)
Definition index {A : Type} (l : list A) (i : nat) : result A :=
  match l !! i with
  | Some a => OK a
  | None => Raise IndexError
  end.

(** ** Similarity strategy (document-intelligence-embeddings.ipynb) *)

(** The names of cell 20 that one iteration of the loop may leave bound for
    the next one. *)
Record Env : Type := mkEnv {
  v_classification : option string;
  v_similarity : option Q;
  v_best_similarity : option Q;
  v_all_similarities : option (list SimilarityEntry)
}.

(** A kernel that has just run the cells above cell 20. *)
Definition fresh_env : Env := mkEnv None None None None.

(** [similarity_threshold = 0.4] *)
Definition similarity_threshold : Q := 4 # 10.

Section SimilarityClassifier.

(** What [sklearn.metrics.pairwise.cosine_similarity] computes for one
    pair of rows of the same length. *)
Variable cosine : list Q -> list Q -> Q.
(** [str] on a numpy float. *)
Variable str_float : Q -> string.
(** The category dicts after cell 16, in list order, and the threshold. *)
Variable registry : list Category.
Variable threshold : Q.

(** [classification_embeddings = [cls['embedding'] for cls in classifications]] *)
Definition classification_embeddings : list (list Q) :=
  map cat_embedding registry.

(** [cosine_similarity(page_vector, classification_matrix)[0]]: one
    similarity per row of the matrix, in row order.  scikit-learn checks
    its arguments first and raises [ValueError] for a matrix built from an
    empty list (it is one-dimensional), for a vector without features,
    and when the rows of the matrix do not all have the length of the
    page vector. *)
Definition cosine_similarity_row (page_vector : list Q)
    (classification_matrix : list (list Q)) : result (list Q) :=
  match page_vector, classification_matrix with
  | [], _ => Raise ValueError
  | _ :: _, [] => Raise ValueError
  | _ :: _, _ :: _ =>
      if forallb (fun row => Nat.eqb (length row) (length page_vector))
           classification_matrix
      then OK (map (cosine page_vector) classification_matrix)
      else Raise ValueError
  end.

(** The [for cls, sim in zip(classifications, similarities)] loop. *)
Definition build_all_similarities (similarities : list Q)
    : list SimilarityEntry :=
  zip_with
    (fun cls sim =>
       {| se_classification := cat_classification cls;
          se_similarity := str_float sim |})
    registry similarities.

(** The [if not page_emb: ... else: ...] statement: the bindings it
    leaves behind. *)
Definition classify_branch (env : Env) (page_emb : list Q) : result Env :=
  match page_emb with
  | [] =>
      OK {| v_classification := Some Unclassified;
            v_similarity := Some 0%Q;
            v_best_similarity := v_best_similarity env;
            v_all_similarities := v_all_similarities env |}
  | _ :: _ =>
      do similarities <-
        cosine_similarity_row page_emb classification_embeddings;
      do best_match_idx <- argmax similarities;
      do best_similarity <- index similarities best_match_idx;
      let all_similarities := build_all_similarities similarities in
      do classification <-
        (if Qle_bool threshold best_similarity
         then do cls <- index registry best_match_idx;
              OK (cat_classification cls)
         else OK Unclassified);
      OK {| v_classification := Some classification;
            v_similarity := v_similarity env;
            v_best_similarity := Some best_similarity;
            v_all_similarities := Some all_similarities |}
  end.

(** One iteration of the loop of cell 20: the branch, then the
    [Classification(...)] that is appended. *)
Definition classify_page (env : Env) (idx : nat) (page_emb : list Q)
    : result (Env * Classification) :=
  do env' <- classify_branch env page_emb;
  do classification <- read_var "classification" (v_classification env');
  do best_similarity <- read_var "best_similarity" (v_best_similarity env');
  do all_similarities <-
    read_var "all_similarities" (v_all_similarities env');
  OK (env',
      {| page_number := Z.of_nat idx;
         classification := classification;
         similarity := best_similarity;
         all_similarities := all_similarities |}).

(** [for idx, page_emb in enumerate(page_embeddings)], appending to
    [document_classifications.classifications]. *)
Fixpoint classify_loop (env : Env) (idx : nat)
    (page_embeddings : list (list Q))
    (document_classifications : list Classification)
    : result (list Classification) :=
  match page_embeddings with
  | [] => OK document_classifications
  | page_emb :: rest =>
      do step <- classify_page env idx page_emb;
      classify_loop step.1 (S idx) rest
        (document_classifications ++ [step.2])
  end.

(** Cell 20 from a fresh kernel: the matrix of the category embeddings
    is built before the loop starts (the loop reads the same rows through
    [classification_embeddings]). *)
Definition classify_pages (page_embeddings : list (list Q))
    : result Classifications :=
  do classification_matrix <- np_array classification_embeddings;
  do cs <- classify_loop fresh_env 0 page_embeddings [];
  OK (mkClassifications cs).

(** Every category embedding has the length of the page embedding. *)
Definition dimension_matches (page_emb : list Q) : Prop :=
  Forall (fun cls => length (cat_embedding cls) = length page_emb) registry.

(** Every page is without embedding or fits the registry. *)
Definition pages_fit (page_embeddings : list (list Q)) : Prop :=
  Forall (fun page_emb => page_emb = [] \/ dimension_matches page_emb)
    page_embeddings.

(** Two closed forms used to state what the loop computes: the
    similarities of one page against the registry, in registry order,
    and the record appended for a page whose best match is the category
    [cls] with similarity [best]. *)
Definition page_similarities (page_emb : list Q) : list Q :=
  map (fun cls => cosine page_emb (cat_embedding cls)) registry.

Definition usable_record (idx : nat) (page_emb : list Q) (best : Q)
    (cls : Category) : Classification :=
  {| page_number := Z.of_nat idx;
     classification :=
       if Qle_bool threshold best then cat_classification cls
       else Unclassified;
     similarity := best;
     all_similarities := build_all_similarities (page_similarities page_emb) |}.

End SimilarityClassifier.

(** ** Python dicts with integer and string keys *)

(** The [accuracy] and [confidence] dicts are keyed by the integer page
    numbers and by one string. *)
Inductive DictKey : Type :=
| KInt (z : Z)
| KStr (s : string).

#[global] Instance DictKey_eq_dec : EqDecision DictKey.
Proof. solve_decision. Defined.

#[global] Instance DictKey_countable : Countable DictKey.
Proof.
  refine (inj_countable'
    (fun k => match k with KInt z => inl z | KStr s => inr s end)
    (fun e => match e with inl z => KInt z | inr s => KStr s end) _).
  intros []; reflexivity.
Defined.

(** [sum] over a list of numbers. *)
Definition Qsum (l : list Q) : Q := foldr Qplus 0%Q l.

(** [sum(d.values())] and [a / len(d)]: true division, which raises on a
    zero divisor. *)
Definition dict_values {V : Type} (d : gmap DictKey V) : list V :=
  (map_to_list d).*2.

Definition py_truediv (a : Q) (n : nat) : result Q :=
  match n with
  | O => Raise ZeroDivisionError
  | S _ => OK (a / inject_Z (Z.of_nat n))%Q
  end.

(** ** Evaluation engine (the accuracy cell of both notebooks) *)

(** Modelled from the spec: [Classifications.get_classification] of
    [modules/classification.py], which is not among the source files.  The
    spec gives a ClassificationSet a lookup by [page_number] that fails
    with [NotFoundError] if the page number is absent. *)
Definition get_classification (cs : Classifications) (page : Z)
    : result Classification :=
  match find (fun c => Z.eqb (page_number c) page) (classifications cs) with
  | Some c => OK c
  | None => Raise (NotFoundError page)
  end.

(** [1 if expected_classification == actual_classification else 0] *)
Definition indicator (expected_classification actual_classification : string)
    : Q :=
  if String.eqb expected_classification actual_classification
  then 1%Q else 0%Q.

(** The [for idx, classification in enumerate(...)] loop that fills the
    [accuracy] dict. *)
Fixpoint accuracy_loop (expected : Classifications)
    (actual : list Classification) (accuracy : gmap DictKey Q)
    : result (gmap DictKey Q) :=
  match actual with
  | [] => OK accuracy
  | c :: rest =>
      let page := page_number c in
      do e <- get_classification expected page;
      let expected_classification := classification e in
      let actual_classification := classification c in
      accuracy_loop expected rest
        (<[KInt page := indicator expected_classification
                          actual_classification]> accuracy)
  end.

Definition overall_key : DictKey := KStr "overall".

(** The whole accuracy cell:
    [overall = sum(accuracy.values()) / len(accuracy)], then
    [accuracy['overall'] = overall]. *)
Definition calculate_accuracy (expected document_classifications : Classifications)
    : result (gmap DictKey Q) :=
  do accuracy <-
    accuracy_loop expected (classifications document_classifications) ∅;
  do overall <- py_truediv (Qsum (dict_values accuracy)) (size accuracy);
  OK (<[overall_key := overall]> accuracy).

(** ** The static tables of the notebooks *)

(** Cell 9, the same list in both notebooks. *)
Definition classification_defs : list CategoryDef :=
  [ {| def_classification := "Insurance Policy";
       def_description := "Specific information related to an insurance policy, such as coverage, limits, premiums, and terms, often used for reference or clarification purposes.";
       def_keywords := ["cover type"; "effective date"; "expiry date";
                        "excesses"; "premium"; "policy number"] |};
    {| def_classification := "Insurance Certificate";
       def_description := "A document that serves as proof of insurance coverage, often required for legal, regulatory, or contractual purposes.";
       def_keywords := ["certificate"; "proof"; "coverage"; "liability";
                        "endorsement"; "declaration"] |};
    {| def_classification := "Terms and Conditions";
       def_description := "The rules, requirements, or obligations that govern an agreement or contract, often related to insurance policies, financial products, or legal documents.";
       def_keywords := ["legal"; "statements"; "terms"; "conditions"; "rules";
                        "requirements"; "obligations"; "agreement";
                        "responsibilities"; "payment"; "renewal";
                        "cancellation"; "what's covered";
                        "what's not covered"; "exclusions"; "limitations";
                        "exceptions"; "restrictions"] |} ].

Definition expected_page (page : Z) (label : string) : Classification :=
  {| page_number := page; classification := label;
     similarity := 1%Q; all_similarities := [] |}.

(** Cell 7 of document-intelligence-embeddings.ipynb. *)
Definition expected_embeddings : Classifications :=
  {| classifications :=
       [ expected_page 0 "Insurance Policy";
         expected_page 1 "Insurance Policy";
         expected_page 2 "Insurance Policy";
         expected_page 3 "Insurance Policy";
         expected_page 4 "Insurance Policy";
         expected_page 5 "Insurance Certificate";
         expected_page 6 "Terms and Conditions";
         expected_page 7 "Terms and Conditions";
         expected_page 8 "Terms and Conditions";
         expected_page 9 "Terms and Conditions";
         expected_page 10 "Terms and Conditions";
         expected_page 11 "Terms and Conditions";
         expected_page 12 "Terms and Conditions" ] |}.

(** Cell 7 of openai.ipynb. *)
Definition expected_openai : Classifications :=
  {| classifications :=
       [ expected_page 1 "Insurance Policy";
         expected_page 2 "Insurance Policy";
         expected_page 3 "Insurance Policy";
         expected_page 4 "Insurance Policy";
         expected_page 5 "Insurance Policy";
         expected_page 6 "Insurance Certificate";
         expected_page 7 "Terms and Conditions";
         expected_page 8 "Terms and Conditions";
         expected_page 9 "Terms and Conditions";
         expected_page 10 "Terms and Conditions";
         expected_page 11 "Terms and Conditions";
         expected_page 12 "Terms and Conditions";
         expected_page 13 "Terms and Conditions" ] |}.

Definition pdf_file_name : string := "VehicleInsurancePolicy.pdf".

(** ** Result assembler and the file system *)

(** [DataClassificationResult(classification=..., accuracy=...,
    execution_time=...)], as both notebooks build it. *)
Record DataClassificationResult : Type := mkDataClassificationResult {
  dcr_classification : Classifications;
  dcr_accuracy : gmap DictKey Q;
  dcr_execution_time : Q
}.

(** A notebook run threads the file system (path to content) through its
    cells; a cell that raises ends the run, the cells after it do not
    execute. *)
Definition Cell (A : Type) : Type :=
  gmap string string -> gmap string string * result A.

Definition cell_bind {A B : Type} (c : Cell A) (k : A -> Cell B) : Cell B :=
  fun fs =>
    match c fs with
    | (fs', OK a) => k a fs'
    | (fs', Raise e) => (fs', Raise e)
    end.

(** A cell that computes without touching the file system. *)
Definition compute {A : Type} (r : result A) : Cell A :=
  fun fs => (fs, r).

(** [open(path, "w")]: the file is created, or emptied when it exists. *)
Definition open_for_writing (path : string) : Cell unit :=
  fun fs => (<[path := ""]> fs, OK tt).

(** [f.write(content)] on the file just opened, and its closing. *)
Definition write_text (path content : string) : Cell unit :=
  fun fs => (<[path := content]> fs, OK tt).

Notation "'cell' x <- c ; k" := (cell_bind c (fun x => k))
  (at level 10, x name, c at level 100, k at level 200) : py_scope.

(** [with open(path, "w") as f: f.write(content)], where [content] is an
    expression still to be evaluated: the file is opened first, so a
    content that raises leaves the file empty. *)
Definition write_result (path : string) (content : result string)
    : Cell unit :=
  cell opened <- open_for_writing path;
  cell text <- compute content;
  write_text path text.

(** [d[key]] on a dict. *)
Definition dict_item {V : Type} (d : gmap DictKey V) (k : DictKey)
    (name : string) : result V :=
  match d !! k with
  | Some v => OK v
  | None => Raise (KeyError name)
  end.

(** ** The similarity notebook, cell by cell *)

Section EmbeddingsNotebook.

(** [os.path.abspath('../../')] *)
Variable working_dir : string.
(** Cell 11: layout analysis of the file and the per-page slices of its
    content ([pages_content]). *)
Variable analyze_pages : string -> result (list string).
(** Cell 14: the embedding provider. *)
Variable get_embedding : string -> result (list Q).
Variable cosine : list Q -> list Q -> Q.
Variable str_float : Q -> string.
(** The sum of the stopwatches; [DataClassificationResult.to_json]; and
    the rest of cell 24 after the write (the DataFrame, its Markdown
    rendering, [classification_comparison] and their display). *)
Variable total_elapsed : Q.
Variable to_json : DataClassificationResult -> result string.
Variable display_outputs : Classifications -> gmap DictKey Q -> result unit.

Definition fname : string :=
  working_dir ++ "/samples/assets/" ++ pdf_file_name.

(** Cell 16: one embedding per category, from the space-joined keywords. *)
Fixpoint embed_classifications (defs : list CategoryDef)
    : result (list Category) :=
  match defs with
  | [] => OK []
  | d :: rest =>
      let combined_text := String.concat " " (def_keywords d) in
      do embedding <- get_embedding combined_text;
      do rest' <- embed_classifications rest;
      OK ({| cat_def := d; cat_embedding := embedding |} :: rest')
  end.

(** Cell 18: one embedding per page text. *)
Fixpoint embed_pages (pages_content : list string)
    : result (list (list Q)) :=
  match pages_content with
  | [] => OK []
  | text :: rest =>
      do embedding <- get_embedding text;
      do rest' <- embed_pages rest;
      OK (embedding :: rest')
  end.

Definition embeddings_output_path : string :=
  working_dir ++ "/samples/classification/document-intelligence-embeddings."
    ++ pdf_file_name ++ ".json".

(** Cells 11 to 22 in order and the record that cell 24 builds first:
    the classification run.  None of these cells touches a file of its
    own. *)
Definition embeddings_classification_run : result DataClassificationResult :=
  do pages_content <- analyze_pages fname;
  do registry <- embed_classifications classification_defs;
  do page_embeddings <- embed_pages pages_content;
  do document_classifications <-
    classify_pages cosine str_float registry similarity_threshold
      page_embeddings;
  do accuracy <-
    calculate_accuracy expected_embeddings document_classifications;
  OK {| dcr_classification := document_classifications;
        dcr_accuracy := accuracy;
        dcr_execution_time := total_elapsed |}.

(** The whole notebook: the classification run, then the rest of cell 24,
    which opens the result file, serialises the record into it and goes
    on to display the outputs. *)
Definition embeddings_notebook : Cell unit :=
  cell classification_result <- compute embeddings_classification_run;
  cell written <-
    write_result embeddings_output_path (to_json classification_result);
  compute (display_outputs (dcr_classification classification_result)
             (dcr_accuracy classification_result)).

End EmbeddingsNotebook.

(** ** The vision notebook, cell by cell *)

Section OpenAINotebook.

Variable working_dir : string.
(** Cell 11: the page images of the file ([convert_from_bytes]). *)
Variable Image : Type.
Variable convert_from_bytes : string -> result (list Image).
(** Cell 11: the single completion request.  It answers with
    [choices[0]]: the parsed message, which is [None] when the model
    gave no structured answer, and the choice that carries the token
    log-probabilities.  A completion that returns is taken to carry the
    token counts that cell 16 reads off [completion.usage]. *)
Variable Choice : Type.
Variable parse_completion :
  list CategoryDef -> list Image -> result (option Classifications * Choice).
(** [modules.openai_confidence.evaluate_confidence], as called. *)
Variable evaluate_confidence_call :
  Classifications -> Choice -> result (gmap DictKey (option Q)).
(** The sum of the stopwatches; [DataClassificationResult.to_json]; and
    the rest of cell 16 after the write and after the reading of
    [confidence['_overall']]. *)
Variable total_elapsed : Q.
Variable to_json : DataClassificationResult -> result string.
Variable display_outputs :
  Classifications -> gmap DictKey Q -> gmap DictKey (option Q) ->
  result unit.

(** Cell 12: [document_classifications = completion.choices[0].message.parsed] *)
Definition parsed_classifications
    (completion : option Classifications * Choice)
    : option Classifications :=
  completion.1.

(** Reading [.classifications] off the parsed message. *)
Definition vision_classifications (parsed : option Classifications)
    : result Classifications :=
  match parsed with
  | Some cs => OK cs
  | None => Raise (AttributeError "classifications")
  end.

Definition openai_output_path : string :=
  working_dir ++ "/samples/classification/openai."
    ++ pdf_file_name ++ ".json".

(** Cells 11 to 14 in order and the top of cell 16, which evaluates the
    confidence and builds the record: the classification run. *)
Definition openai_classification_run
    : result (DataClassificationResult * gmap DictKey (option Q)) :=
  do pages <- convert_from_bytes (fname working_dir);
  do completion <- parse_completion classification_defs pages;
  do document_classifications <-
    vision_classifications (parsed_classifications completion);
  do accuracy <-
    calculate_accuracy expected_openai document_classifications;
  do confidence <-
    evaluate_confidence_call document_classifications completion.2;
  OK ({| dcr_classification := document_classifications;
         dcr_accuracy := accuracy;
         dcr_execution_time := total_elapsed |},
      confidence).

(** The whole notebook: the classification run, then the rest of cell 16,
    which opens the result file, serialises the record into it, reads
    [confidence['_overall']] for the summary table and displays the
    outputs. *)
Definition openai_notebook : Cell unit :=
  cell run <- compute openai_classification_run;
  cell written <- write_result openai_output_path (to_json run.1);
  cell overall <- compute (dict_item run.2 (KStr "_overall") "_overall");
  compute (display_outputs (dcr_classification run.1) (dcr_accuracy run.1)
             run.2).

End OpenAINotebook.

(** ** Confidence of the vision strategy *)

Module OpenAIConfidence.

Definition overall_key : DictKey := KStr "_overall".

(** The mean of a list of numbers; there is none for the empty list. *)
Definition mean (l : list Q) : option Q :=
  match l with
  | [] => None
  | _ :: _ => Some (Qsum l / inject_Z (Z.of_nat (length l)))%Q
  end.

(** The per-page values of a report that are defined. *)
Definition defined_values (d : gmap DictKey (option Q)) : list Q :=
  omap id (dict_values d).

Section Confidence.

(** [exp] on a token log-probability, and the rule that combines the
    linear probabilities of the tokens of one label; the spec leaves
    the rule to the implementation. *)
Variable exp : Q -> Q.
Variable combine : list Q -> Q.

(** Modelled from the spec: the per-page step of [evaluate_confidence]
    of [modules/openai_confidence.py], which is not among the source
    files.  Each token log-probability of the page's label becomes a
    linear probability and the rule combines them; a page without
    log-probability data has an undefined confidence ([None]), never
    zero. *)
Definition page_confidence (logprobs : option (list Q)) : option Q :=
  match logprobs with
  | Some ls => Some (combine (map exp ls))
  | None => None
  end.

(** Modelled from the spec: [evaluate_confidence] of
    [modules/openai_confidence.py], which is not among the source
    files.  Its input here is the outcome of the attribution of tokens
    to pages: per page number, the log-probabilities of the label's
    tokens, or [None] where they are missing.  The report maps each
    page number to its confidence and holds, under the key the
    notebook reads (['_overall']), the mean of the defined per-page
    confidences; with no defined confidence the aggregate is itself
    undefined. *)
Definition page_confidences (pages : list (Z * option (list Q)))
    : gmap DictKey (option Q) :=
  foldl (fun d pl => <[KInt pl.1 := page_confidence pl.2]> d) ∅ pages.

Definition evaluate_confidence (pages : list (Z * option (list Q)))
    : gmap DictKey (option Q) :=
  let confidence := page_confidences pages in
  <[overall_key := mean (defined_values confidence)]> confidence.

End Confidence.

End OpenAIConfidence.
(** ** Predicates used to state the evaluation results *)

(** Every entry of the dict [d] is the correctness indicator of a record
    of [l] under its page number, and every record of [l] has an entry. *)
Definition indicators_of (expected : Classifications)
    (l : list Classification) (d : gmap DictKey Q) : Prop :=
  (forall k v, d !! k = Some v ->
     exists c e, c ∈ l /\ k = KInt (page_number c) /\
       get_classification expected (page_number c) = OK e /\
       v = indicator (classification e) (classification c)) /\
  (forall c, c ∈ l -> is_Some (d !! KInt (page_number c))).

(** The record [c] has an expected classification, with the same label or
    with another one. *)
Definition matches_expected (expected : Classifications) (c : Classification)
    : Prop :=
  exists e, get_classification expected (page_number c) = OK e /\
            classification e = classification c.

Definition differs_from_expected (expected : Classifications)
    (c : Classification) : Prop :=
  exists e, get_classification expected (page_number c) = OK e /\
            classification e <> classification c.

(** ** Sample inputs

    The end-to-end example: two categories whose embeddings are the two
    unit vectors of the plane, so that the dot product of a page vector
    with them stands for the cosine kernel, and three pages, the last one
    without embedding. *)

Definition dot (a b : list Q) : Q := Qred (Qsum (zip_with Qmult a b)).

Definition sample_str (q : Q) : string :=
  pretty (Qnum q) +:+ "/" +:+ pretty (Zpos (Qden q)).

Definition sample_registry : list Category :=
  [ {| cat_def := {| def_classification := "A"; def_description := "";
                     def_keywords := ["x"; "y"] |};
       cat_embedding := [1%Q; 0%Q] |};
    {| cat_def := {| def_classification := "B"; def_description := "";
                     def_keywords := ["p"; "q"] |};
       cat_embedding := [0%Q; 1%Q] |} ].

Definition sample_page_embeddings : list (list Q) :=
  [ [9 # 10; 1 # 10]; [1 # 10; 9 # 10]; [] ]%Q.

(** Sample collaborators: a layout analysis that fails, one that reads a
    single page, an embedding provider that answers every text with the
    same vector, and a rendering of a result record. *)
Definition failing_analyze_pages (file : string) : result (list string) :=
  Raise (ProviderError "layout analysis failed").

Definition one_page_analyze_pages (file : string) : result (list string) :=
  OK ["Policy number 12345"].

Definition constant_embedding (text : string) : result (list Q) :=
  OK [1%Q].

Definition sample_to_json (r : DataClassificationResult) : result string :=
  OK (String.concat ","
        (map classification (classifications (dcr_classification r)))).

(** A display that succeeds, for either notebook. *)
Definition sample_display (document_classifications : Classifications)
    (accuracy : gmap DictKey Q) : result unit :=
  OK tt.

Definition sample_display_confidence
    (document_classifications : Classifications)
    (accuracy : gmap DictKey Q) (confidence : gmap DictKey (option Q))
    : result unit :=
  OK tt.

(** A parsed answer of the vision model for a one-page document. *)
Definition sample_vision_answer : Classifications :=
  {| classifications := [expected_page 1 "Insurance Policy"] |}.

(** A confidence, or a probability, lies between 0 and 1. *)
Definition unit_interval (q : Q) : Prop := (0 <= q <= 1)%Q.

(** The combination rule the spec recommends, the product of the token
    probabilities, and a rational stand-in for [exp] on log-probabilities
    (it maps the non-positive rationals into the unit interval). *)
Definition product (ps : list Q) : Q := foldr Qmult 1%Q ps.

Definition sample_exp (l : Q) : Q := (1 / (1 - l))%Q.

(** ** Predicates used to compare two runs of the classifier *)

(** Two loop states that hold the same best similarity and the same
    similarity list. *)
Definition env_agree (env1 env2 : Env) : Prop :=
  v_best_similarity env1 = v_best_similarity env2 /\
  v_all_similarities env1 = v_all_similarities env2.

(** The record [r2] is [r1] with its label kept or turned into
    ["Unclassified"]. *)
Definition label_kept_or_dropped (r1 r2 : Classification) : Prop :=
  page_number r2 = page_number r1 /\
  similarity r2 = similarity r1 /\
  all_similarities r2 = all_similarities r1 /\
  (classification r2 = classification r1 \/
   classification r2 = Unclassified).

(** ** Closed forms used to state further evaluation results *)

(** Whether the record [c] has the expected label: the condition of the
    accuracy cell, [false] where the lookup finds nothing. *)
Definition is_correct (expected : Classifications) (c : Classification)
    : bool :=
  match get_classification expected (page_number c) with
  | OK e => String.eqb (classification e) (classification c)
  | Raise _ => false
  end.

(** The entry that one iteration of the accuracy loop stores. *)
Definition accuracy_entry (expected : Classifications)
    (accuracy : gmap DictKey Q) (c : Classification) : gmap DictKey Q :=
  <[KInt (page_number c) := if is_correct expected c then 1%Q else 0%Q]>
    accuracy.

(** The two fields of a record that the accuracy cell reads. *)
Definition page_label (c : Classification) : Z * string :=
  (page_number c, classification c).

(** ** Page contents from the layout analysis (cell 11) *)

(** The parts of the analysis result that the cell reads: the whole
    content and, per page, the spans with their ['offset'] and
    ['length']. *)
Record DocumentSpan : Type := mkDocumentSpan {
  span_offset : Z;
  span_length : Z
}.

Record DocumentPage : Type := mkDocumentPage {
  page_spans : list DocumentSpan
}.

Record AnalyzeResult : Type := mkAnalyzeResult {
  ar_content : string;
  ar_pages : list DocumentPage
}.

(** A bound of a Python slice over a sequence of length [n]: a negative
    bound counts from the end, and the bound is clamped to the sequence. *)
Definition slice_bound (n i : Z) : Z :=
  if (i <? 0)%Z then Z.max (i + n) 0 else Z.min i n.

(** [s[start:stop]] on a string. *)
Definition py_slice (s : string) (start stop : Z) : string :=
  let n := Z.of_nat (String.length s) in
  let lo := slice_bound n start in
  let hi := slice_bound n stop in
  String.substring (Z.to_nat lo) (Z.to_nat (hi - lo)) s.

(** [result.content[page.spans[0]['offset']:
                    page.spans[0]['offset'] + page.spans[0]['length']]] *)
Definition page_content (analysis : AnalyzeResult) (page : DocumentPage)
    : result string :=
  do span <- index (page_spans page) 0;
  OK (py_slice (ar_content analysis) (span_offset span)
        (span_offset span + span_length span)).

(** [for page in result.pages: ... pages_content.append(content)] *)
Fixpoint pages_content_loop (analysis : AnalyzeResult)
    (pages : list DocumentPage) (pages_content : list string)
    : result (list string) :=
  match pages with
  | [] => OK pages_content
  | page :: rest =>
      do content <- page_content analysis page;
      pages_content_loop analysis rest (pages_content ++ [content])
  end.

Definition extract_pages_content (analysis : AnalyzeResult)
    : result (list string) :=
  pages_content_loop analysis (ar_pages analysis) [].

(** The first spans of the pages follow one another from [start] to
    [stop] without gap or overlap. *)
Fixpoint spans_tile (start : Z) (pages : list DocumentPage) (stop : Z)
    : Prop :=
  match pages with
  | [] => start = stop
  | page :: rest =>
      exists span more,
        page_spans page = span :: more /\
        span_offset span = start /\ (0 <= span_length span)%Z /\
        spans_tile (start + span_length span) rest stop
  end.

(** A two-page analysis result whose spans tile the content. *)
Definition sample_analysis : AnalyzeResult :=
  {| ar_content := "first page.second page.";
     ar_pages :=
       [ {| page_spans := [ {| span_offset := 0; span_length := 11 |} ] |};
         {| page_spans := [ {| span_offset := 11; span_length := 12 |} ] |} ]
  |}.

(** ** The request content of the vision notebook (cell 11) *)

(** One element of [user_content]: the dict of type ["text"] with its
    text, or the dict of type ["image_url"] with its url. *)
Inductive ContentPart : Type :=
| TextPart (text : string)
| ImageUrlPart (url : string).

Definition newline : string := String (Ascii.ascii_of_nat 10) "".

Definition data_url_prefix : string := "data:image/png;base64,".

Section UserContent.

Variable Image : Type.
(** [json.dumps(classifications)], and the PNG bytes of a page image in
    base64. *)
Variable json_dumps : list CategoryDef -> string.
Variable png_base64 : Image -> string.

(** The f-string of the text part, with the indentation that the triple
    quotes keep. *)
Definition classifications_text : string :=
  "Classifications:" ++ newline ++ "    " ++ newline
    ++ "    " ++ json_dumps classification_defs ++ newline ++ "    ".

(** [for page in pages: ... user_content.append({...})] *)
Fixpoint append_page_images (pages : list Image)
    (user_content : list ContentPart) : list ContentPart :=
  match pages with
  | [] => user_content
  | page :: rest =>
      let base64_data := png_base64 page in
      append_page_images rest
        (user_content ++ [ImageUrlPart (data_url_prefix ++ base64_data)])
  end.

Definition build_user_content (pages : list Image) : list ContentPart :=
  append_page_images pages [TextPart classifications_text].

End UserContent.

(** ** Facts about the helpers *)

Lemma bind_OK {A B : Type} (r : result A) (k : A -> result B) (b : B) :
  bind r k = OK b -> exists a, r = OK a /\ k a = OK b.
Proof. destruct r as [a|e]; simpl; [eauto | discriminate]. Qed.

Lemma Qle_bool_false (x y : Q) : Qle_bool x y = false -> (y < x)%Q.
Proof.
  intros H. apply Qnot_le_lt. intros Hle.
  apply Qle_bool_iff in Hle. congruence.
Qed.

(** [argmax_from] keeps the first maximum: started on a prefix [p] whose
    first maximum [best] sits at [best_i], it ends on the first maximum of
    [p ++ l]. *)

Lemma argmax_from_first_max (l p : list Q) (best_i : nat) (best : Q) :
  first_max p best_i best ->
  exists m, first_max (p ++ l) (argmax_from best_i best (length p) l) m.
Proof.
  revert p best_i best.
  induction l as [|x l IH]; intros p best_i best Hp; simpl.
  - exists best. by rewrite app_nil_r.
  - replace (p ++ x :: l) with ((p ++ [x]) ++ l) by (by rewrite <- app_assoc).
    replace (S (length p)) with (length (p ++ [x]))
      by (rewrite length_app; simpl; lia).
    destruct Hp as (Hat & Hmax & Hfirst).
    destruct (Qle_bool x best) eqn:Hx.
    + apply IH. apply Qle_bool_iff in Hx.
      repeat split.
      * apply lookup_app_l_Some. exact Hat.
      * intros k y Hk. apply lookup_app_Some in Hk as [Hk|[_ Hk]].
        -- eauto.
        -- apply list_lookup_singleton_Some in Hk as [_ <-]. exact Hx.
      * intros k y Hlt Hk. apply lookup_app_Some in Hk as [Hk|[Hge _]].
        -- eauto.
        -- apply lookup_lt_Some in Hat. lia.
    + apply IH. apply Qle_bool_false in Hx.
      repeat split.
      * rewrite lookup_app_r by lia. by rewrite Nat.sub_diag.
      * intros k y Hk. apply lookup_app_Some in Hk as [Hk|[_ Hk]].
        -- apply Qlt_le_weak. eapply Qle_lt_trans; eauto.
        -- apply list_lookup_singleton_Some in Hk as [_ <-]. apply Qle_refl.
      * intros k y Hlt Hk. rewrite lookup_app_l in Hk by lia.
        eapply Qle_lt_trans; eauto.
Qed.

Lemma argmax_first_max (l : list Q) :
  l <> [] -> exists j m, argmax l = OK j /\ first_max l j m.
Proof.
  destruct l as [|x l]; [done|]. intros _. simpl.
  destruct (argmax_from_first_max l [x] 0 x) as [m Hm].
  - repeat split.
    + intros [|k] y Hk; simpl in Hk; [|by rewrite lookup_nil in Hk].
      injection Hk as <-. apply Qle_refl.
    + intros k y Hlt. lia.
  - eauto.
Qed.

Lemma first_max_elem (l : list Q) (j : nat) (best : Q) :
  first_max l j best -> forall s, s ∈ l -> (s <= best)%Q.
Proof.
  intros (_ & Hmax & _) s Hs.
  apply list_elem_of_lookup in Hs as [k Hk]. eauto.
Qed.


(** ** The similarity classifier *)

Section SimilarityFacts.

Variable cosine : list Q -> list Q -> Q.
Variable str_float : Q -> string.
Variable registry : list Category.
Variable threshold : Q.

Lemma dimension_matches_forallb (page_emb : list Q) :
  forallb (fun row => Nat.eqb (length row) (length page_emb))
    (classification_embeddings registry) = true
  <-> dimension_matches registry page_emb.
Proof.
  unfold classification_embeddings, dimension_matches.
  rewrite forallb_forall, Forall_forall. split.
  - intros H cls Hcls. apply Nat.eqb_eq, H, in_map.
    by apply list_elem_of_In.
  - intros H row Hrow. apply in_map_iff in Hrow as (cls & <- & Hcls).
    apply Nat.eqb_eq, H. by apply list_elem_of_In.
Qed.

Lemma dimension_matches_rectangular (page_emb : list Q) :
  dimension_matches registry page_emb ->
  rectangular (classification_embeddings registry) = true.
Proof.
  unfold dimension_matches, classification_embeddings, rectangular.
  destruct registry as [|c cs]; [done|]. intros H. simpl.
  apply Forall_cons in H as [Hc Hcs].
  apply forallb_forall. intros row Hrow.
  apply in_map_iff in Hrow as (cls & <- & Hcls).
  apply Nat.eqb_eq. rewrite Hc.
  rewrite Forall_forall in Hcs. apply Hcs. by apply list_elem_of_In.
Qed.

Lemma cosine_similarity_row_registry (page_emb : list Q) :
  registry <> [] -> page_emb <> [] ->
  dimension_matches registry page_emb ->
  cosine_similarity_row cosine page_emb (classification_embeddings registry)
    = OK (page_similarities cosine registry page_emb).
Proof.
  intros Hreg Hemb Hdim.
  apply dimension_matches_forallb in Hdim.
  unfold cosine_similarity_row. rewrite Hdim.
  unfold classification_embeddings, page_similarities.
  destruct page_emb as [|x xs]; [done|].
  destruct registry as [|c cs]; [done|]. simpl.
  by rewrite map_map.
Qed.

(** A usable page whose similarities are computed fits the registry. *)
Lemma cosine_similarity_row_OK (page_emb : list Q) (sims : list Q) :
  cosine_similarity_row cosine page_emb (classification_embeddings registry)
    = OK sims ->
  page_emb <> [] /\ registry <> [] /\ dimension_matches registry page_emb.
Proof.
  unfold cosine_similarity_row. intros H.
  destruct page_emb as [|x xs]; [discriminate|].
  destruct (classification_embeddings registry) as [|row rows] eqn:Hrows;
    [discriminate|].
  destruct (forallb _ _) eqn:Hall; [|discriminate].
  split; [done|]. split.
  - intros ->. discriminate Hrows.
  - apply dimension_matches_forallb. by rewrite Hrows.
Qed.

(** The iteration on a usable page does not read what earlier pages left
    bound: its record is fixed by the page and the registry. *)
Lemma classify_page_usable_at (page_emb : list Q) (j : nat) (best : Q)
    (cls : Category) :
  registry <> [] -> page_emb <> [] ->
  dimension_matches registry page_emb ->
  argmax (page_similarities cosine registry page_emb) = OK j ->
  page_similarities cosine registry page_emb !! j = Some best ->
  registry !! j = Some cls ->
  forall env idx, exists env',
    classify_page cosine str_float registry threshold env idx page_emb
      = OK (env', usable_record cosine str_float registry threshold
                    idx page_emb best cls) /\
    v_best_similarity env' = Some best /\
    v_all_similarities env'
      = Some (build_all_similarities str_float registry
                (page_similarities cosine registry page_emb)).
Proof.
  intros Hreg Hemb Hdim Harg Hat Hcls env idx.
  pose proof (cosine_similarity_row_registry _ Hreg Hemb Hdim) as Hrow.
  destruct page_emb as [|x xs]; [done|].
  unfold classify_page, classify_branch.
  rewrite Hrow. simpl.
  rewrite Harg. simpl. unfold index. rewrite Hat. simpl.
  unfold usable_record.
  destruct (Qle_bool threshold best) eqn:Hth; simpl.
  - rewrite Hcls. simpl. eexists. repeat split; eauto.
  - eexists. repeat split; eauto.
Qed.

Lemma best_match_exists (page_emb : list Q) :
  registry <> [] ->
  exists j best cls,
    argmax (page_similarities cosine registry page_emb) = OK j /\
    first_max (page_similarities cosine registry page_emb) j best /\
    registry !! j = Some cls.
Proof.
  intros Hreg.
  destruct (argmax_first_max (page_similarities cosine registry page_emb))
    as (j & best & Harg & Hfm).
  { unfold page_similarities. destruct registry; [done | discriminate]. }
  assert (exists cls, registry !! j = Some cls) as [cls Hcls].
  { destruct Hfm as [Hat _]. apply lookup_lt_Some in Hat.
    unfold page_similarities in Hat. rewrite length_map in Hat.
    by apply lookup_lt_is_Some_2. }
  eauto 10.
Qed.

Lemma classify_page_usable (env : Env) (idx : nat) (page_emb : list Q) :
  registry <> [] -> page_emb <> [] ->
  dimension_matches registry page_emb ->
  exists env' j best cls,
    first_max (page_similarities cosine registry page_emb) j best /\
    registry !! j = Some cls /\
    classify_page cosine str_float registry threshold env idx page_emb
      = OK (env', usable_record cosine str_float registry threshold
                    idx page_emb best cls) /\
    v_best_similarity env' = Some best /\
    v_all_similarities env'
      = Some (build_all_similarities str_float registry
                (page_similarities cosine registry page_emb)).
Proof.
  intros Hreg Hemb Hdim.
  destruct (best_match_exists page_emb Hreg)
    as (j & best & cls & Harg & Hfm & Hcls).
  destruct (classify_page_usable_at page_emb j best cls Hreg Hemb Hdim Harg
              (proj1 Hfm) Hcls env idx) as (env' & Hstep & Hb & Ha).
  eauto 10.
Qed.

Lemma classify_page_empty (env : Env) (idx : nat) (b : Q)
    (a : list SimilarityEntry) :
  v_best_similarity env = Some b -> v_all_similarities env = Some a ->
  exists env',
    classify_page cosine str_float registry threshold env idx []
      = OK (env', {| page_number := Z.of_nat idx;
                     classification := Unclassified;
                     similarity := b;
                     all_similarities := a |}) /\
    v_best_similarity env' = Some b /\ v_all_similarities env' = Some a.
Proof.
  intros Hb Ha. unfold classify_page. simpl. rewrite Hb, Ha. simpl.
  eexists. repeat split; eauto.
Qed.

Lemma classify_page_inv (env env' : Env) (idx : nat) (page_emb : list Q)
    (r : Classification) :
  classify_page cosine str_float registry threshold env idx page_emb
    = OK (env', r) ->
  page_number r = Z.of_nat idx /\
  is_Some (v_best_similarity env') /\ is_Some (v_all_similarities env').
Proof.
  unfold classify_page. intros H.
  apply bind_OK in H as (e1 & _ & H).
  apply bind_OK in H as (c & _ & H).
  apply bind_OK in H as (b & Hb & H).
  apply bind_OK in H as (a & Ha & H).
  injection H as <- <-. simpl.
  destruct (v_best_similarity e1); [|discriminate].
  destruct (v_all_similarities e1); [|discriminate].
  eauto.
Qed.

(** The loop appends one record per page, each one the outcome of the
    iteration on that page, numbered from [idx] on. *)
Lemma classify_loop_inv (pages : list (list Q)) :
  forall env idx acc out,
    classify_loop cosine str_float registry threshold env idx pages acc
      = OK out ->
    exists recs,
      out = acc ++ recs /\ length recs = length pages /\
      forall i page_emb, pages !! i = Some page_emb ->
        exists env_i env_i' r,
          recs !! i = Some r /\
          classify_page cosine str_float registry threshold
            env_i (idx + i) page_emb = OK (env_i', r).
Proof.
  induction pages as [|p pages IH]; intros env idx acc out H; simpl in H.
  - injection H as <-. exists []. rewrite app_nil_r.
    split; [done|]. split; [done|].
    intros i e Hi. by rewrite lookup_nil in Hi.
  - apply bind_OK in H as ([env1 r1] & Hstep & H). simpl in H.
    apply IH in H as (recs & -> & Hlen & Hrecs).
    exists (r1 :: recs). rewrite <- app_assoc. simpl.
    split; [done|]. split; [simpl; by rewrite Hlen|].
    intros [|i] e Hi; simpl in Hi.
    + injection Hi as <-. exists env, env1, r1.
      by rewrite Nat.add_0_r.
    + destruct (Hrecs i e Hi) as (ei & ei' & r & Hr & Hc).
      exists ei, ei', r. split; [done|].
      by replace (idx + S i) with (S idx + i) by lia.
Qed.

(** Once [best_similarity] and [all_similarities] are bound, with a
    registry that is not empty and pages that fit it, no iteration
    raises. *)
Lemma classify_loop_bound (pages : list (list Q)) :
  registry <> [] -> pages_fit registry pages ->
  forall env idx acc,
    is_Some (v_best_similarity env) -> is_Some (v_all_similarities env) ->
    exists out,
      classify_loop cosine str_float registry threshold env idx pages acc
        = OK out.
Proof.
  intros Hreg.
  induction pages as [|p pages IH]; intros Hfit env idx acc Hb Ha; simpl.
  - eauto.
  - apply Forall_cons in Hfit as [Hp Hfit]. destruct p as [|x xs].
    + destruct Hb as [b Hb], Ha as [a Ha].
      destruct (classify_page_empty env idx b a Hb Ha)
        as (env' & -> & Hb' & Ha'). simpl. apply IH; eauto.
    + destruct Hp as [Hp|Hp]; [discriminate|].
      destruct (classify_page_usable env idx (x :: xs) Hreg)
        as (env' & j & best & cls & _ & _ & -> & Hb' & Ha'); [done..|].
      simpl. apply IH; eauto.
Qed.

(** From a fresh kernel the run returns when the first page has a usable
    embedding and every page with an embedding fits the registry. *)
Lemma classify_pages_returns (page_emb : list Q) (rest : list (list Q)) :
  registry <> [] -> page_emb <> [] ->
  pages_fit registry (page_emb :: rest) ->
  exists out,
    classify_pages cosine str_float registry threshold (page_emb :: rest)
      = OK out.
Proof.
  intros Hreg Hemb Hfit. apply Forall_cons in Hfit as [Hdim Hfit].
  destruct Hdim as [Hdim|Hdim]; [done|].
  unfold classify_pages, np_array.
  rewrite (dimension_matches_rectangular _ Hdim). simpl.
  destruct (classify_page_usable fresh_env 0 page_emb Hreg Hemb Hdim)
    as (env' & j & best & cls & _ & _ & -> & Hb' & Ha').
  simpl.
  destruct (classify_loop_bound rest Hreg Hfit env' 1
              [usable_record cosine str_float registry threshold 0
                 page_emb best cls]) as [out ->]; eauto.
Qed.

Lemma classify_pages_inv (pages : list (list Q)) (out : Classifications) :
  classify_pages cosine str_float registry threshold pages = OK out ->
  length (classifications out) = length pages /\
  forall i page_emb, pages !! i = Some page_emb ->
    exists env_i env_i' r,
      classifications out !! i = Some r /\
      classify_page cosine str_float registry threshold
        env_i i page_emb = OK (env_i', r).
Proof.
  unfold classify_pages. intros H.
  apply bind_OK in H as (matrix & _ & H).
  apply bind_OK in H as (cs & Hloop & H). injection H as <-. simpl.
  apply classify_loop_inv in Hloop as (recs & -> & Hlen & Hrecs).
  simpl. split; [done|]. exact Hrecs.
Qed.

(** A usable page gets the same record from every iteration state, and a
    run that returns holds that record at the page's index. *)
Lemma usable_page_record (page_emb : list Q) :
  registry <> [] -> page_emb <> [] ->
  dimension_matches registry page_emb ->
  exists j best cls,
    first_max (page_similarities cosine registry page_emb) j best /\
    registry !! j = Some cls /\
    forall idx,
      (forall env, exists env',
         classify_page cosine str_float registry threshold env idx page_emb
           = OK (env', usable_record cosine str_float registry threshold
                         idx page_emb best cls)) /\
      (forall pages out,
         pages !! idx = Some page_emb ->
         classify_pages cosine str_float registry threshold pages = OK out ->
         classifications out !! idx
           = Some (usable_record cosine str_float registry threshold
                     idx page_emb best cls)).
Proof.
  intros Hreg Hemb Hdim.
  destruct (best_match_exists page_emb Hreg)
    as (j & best & cls & Harg & Hfm & Hcls).
  exists j, best, cls. split; [done|]. split; [done|].
  intros idx. split.
  - intros env.
    destruct (classify_page_usable_at page_emb j best cls Hreg Hemb Hdim
                Harg (proj1 Hfm) Hcls env idx) as (env' & Hstep & _).
    eauto.
  - intros pages out Hi Hrun.
    apply classify_pages_inv in Hrun as [_ Hrecs].
    destruct (Hrecs idx page_emb Hi) as (ei & ei' & r & Hr & Hc).
    destruct (classify_page_usable_at page_emb j best cls Hreg Hemb Hdim
                Harg (proj1 Hfm) Hcls ei idx) as (env' & Hstep & _).
    rewrite Hstep in Hc. injection Hc as _ <-. exact Hr.
Qed.

Lemma build_all_similarities_map (page_emb : list Q) :
  build_all_similarities str_float registry
    (page_similarities cosine registry page_emb)
  = map (fun cls =>
           {| se_classification := cat_classification cls;
              se_similarity :=
                str_float (cosine page_emb (cat_embedding cls)) |})
        registry.
Proof.
  unfold build_all_similarities, page_similarities.
  induction registry as [|c cs IH]; simpl; [done|]. by rewrite IH.
Qed.

End SimilarityFacts.

(** ** The claims on the similarity classifier *)

Lemma Qle_bool_lt_false (x y : Q) :
  (y < x)%Q -> Qle_bool x y = false.
Proof.
  intros Hlt. destruct (Qle_bool x y) eqn:H; [|done].
  apply Qle_bool_iff in H. by apply Qlt_not_le in Hlt.
Qed.

(** C1 (the code departs from it).  A page without embedding that follows
    a usable page is recorded with the label ["Unclassified"], but with
    the best similarity and the similarity list of the page before it:
    the branch binds [similarity = 0.0] and the record reads
    [best_similarity] and [all_similarities].  When the first page has no
    embedding the run raises [NameError].  The registry holds one category
    whose embedding has the one component that the usable page has. *)
Theorem empty_page_record_reuses_previous_scores
    (cosine : list Q -> list Q -> Q) (str_float : Q -> string)
    (def : CategoryDef) (e threshold x : Q) :
  let cls := {| cat_def := def; cat_embedding := [e] |} in
  let s := cosine [x] [e] in
  classify_pages cosine str_float [cls] threshold [[x]; []]
    = OK {| classifications :=
              [ usable_record cosine str_float [cls] threshold 0 [x] s cls;
                {| page_number := 1;
                   classification := Unclassified;
                   similarity := s;
                   all_similarities :=
                     [ {| se_classification := cat_classification cls;
                          se_similarity := str_float s |} ] |} ] |}
  /\ forall cls' : Category,
       classify_pages cosine str_float [cls'] threshold [[]]
       = Raise (NameError "best_similarity").
Proof.
  intros cls s. split; [|reflexivity].
  unfold classify_pages, classify_loop, classify_page, classify_branch,
    usable_record. simpl. fold s.
  destruct (Qle_bool threshold s); reflexivity.
Qed.

(** On the sample document, page 2 has no embedding and is recorded with
    the score [9/10] of page 1 and with its two similarity entries. *)
Example sample_empty_page_record :
  exists r0 r1 e,
    classify_pages dot sample_str sample_registry similarity_threshold
      sample_page_embeddings
    = OK {| classifications :=
              [ r0; r1;
                {| page_number := 2; classification := Unclassified;
                   similarity := 9 # 10; all_similarities := e |} ] |}
    /\ length e = 2.
Proof. vm_compute. eauto. Qed.

(** C2.  A page with a usable embedding (not empty, and of the length of
    every category embedding) is recorded with the maximum
    similarity as its score whatever the threshold; its label is the name
    of the category that holds the maximum when the maximum reaches the
    threshold and ["Unclassified"] when it does not.  The record is the
    same from every state of the loop, and a run that returns holds it at
    the page's index. *)
Theorem threshold_gates_label_not_score
    (cosine : list Q -> list Q -> Q) (str_float : Q -> string)
    (registry : list Category) (threshold : Q) (page_emb : list Q) :
  registry <> [] -> page_emb <> [] ->
  dimension_matches registry page_emb ->
  exists j best cls,
    first_max (page_similarities cosine registry page_emb) j best /\
    registry !! j = Some cls /\
    forall idx, exists r,
      (forall env, exists env',
         classify_page cosine str_float registry threshold env idx page_emb
           = OK (env', r)) /\
      (forall pages out,
         pages !! idx = Some page_emb ->
         classify_pages cosine str_float registry threshold pages = OK out ->
         classifications out !! idx = Some r) /\
      similarity r = best /\
      ((threshold <= best)%Q -> classification r = cat_classification cls) /\
      ((best < threshold)%Q -> classification r = Unclassified) /\
      (cat_classification cls <> Unclassified ->
       (classification r = cat_classification cls <-> (threshold <= best)%Q)).
Proof.
  intros Hreg Hemb Hdim.
  destruct (usable_page_record cosine str_float registry threshold page_emb
              Hreg Hemb Hdim) as (j & best & cls & Hfm & Hcls & Hrec).
  exists j, best, cls. split; [done|]. split; [done|].
  intros idx. destruct (Hrec idx) as [Hstep Hrun].
  exists (usable_record cosine str_float registry threshold idx page_emb
            best cls).
  split; [done|]. split; [done|]. simpl. split; [done|].
  split; [|split].
  - intros Hle. apply Qle_bool_iff in Hle. by rewrite Hle.
  - intros Hlt. by rewrite (Qle_bool_lt_false _ _ Hlt).
  - intros Hname. destruct (Qle_bool threshold best) eqn:Hth.
    + apply Qle_bool_iff in Hth. done.
    + split; [intros Heq; by destruct Hname|].
      intros Hle. apply Qle_bool_iff in Hle. congruence.
Qed.

Lemma threshold_gates_label_not_score_witness :
  sample_registry <> [] /\ [9 # 10; 1 # 10]%Q <> [] /\
  dimension_matches sample_registry [9 # 10; 1 # 10]%Q /\
  exists j best cls,
    first_max (page_similarities dot sample_registry [9 # 10; 1 # 10]%Q)
      j best /\
    sample_registry !! j = Some cls.
Proof.
  split; [discriminate|]. split; [discriminate|].
  split; [repeat constructor|].
  destruct (threshold_gates_label_not_score dot sample_str sample_registry
              similarity_threshold [9 # 10; 1 # 10]%Q)
    as (j & best & cls & Hfm & Hcls & _);
    [discriminate | discriminate | repeat constructor |].
  exists j, best, cls. split; assumption.
Defined.

(** C6.  The record of a page with a usable embedding (not empty, and of
    the length of every category embedding) lists exactly one entry per
    registered category, in registry order: the category's name with the
    rendering of its similarity to the page. *)
Theorem all_similarities_one_entry_per_category
    (cosine : list Q -> list Q -> Q) (str_float : Q -> string)
    (registry : list Category) (threshold : Q) (page_emb : list Q) :
  registry <> [] -> page_emb <> [] ->
  dimension_matches registry page_emb ->
  forall idx, exists r,
    (forall env, exists env',
       classify_page cosine str_float registry threshold env idx page_emb
         = OK (env', r)) /\
    (forall pages out,
       pages !! idx = Some page_emb ->
       classify_pages cosine str_float registry threshold pages = OK out ->
       classifications out !! idx = Some r) /\
    all_similarities r
      = map (fun cls =>
               {| se_classification := cat_classification cls;
                  se_similarity :=
                    str_float (cosine page_emb (cat_embedding cls)) |})
            registry /\
    length (all_similarities r) = length registry.
Proof.
  intros Hreg Hemb Hdim idx.
  destruct (usable_page_record cosine str_float registry threshold page_emb
              Hreg Hemb Hdim) as (j & best & cls & Hfm & Hcls & Hrec).
  destruct (Hrec idx) as [Hstep Hrun].
  exists (usable_record cosine str_float registry threshold idx page_emb
            best cls).
  split; [done|]. split; [done|]. simpl.
  rewrite build_all_similarities_map. split; [done|].
  by rewrite length_map.
Qed.

Lemma all_similarities_one_entry_per_category_witness :
  sample_registry <> [] /\ [1 # 10; 9 # 10]%Q <> [] /\
  dimension_matches sample_registry [1 # 10; 9 # 10]%Q /\
  exists r,
    (forall env, exists env',
       classify_page dot sample_str sample_registry similarity_threshold
         env 1 [1 # 10; 9 # 10]%Q = OK (env', r)) /\
    length (all_similarities r) = 2.
Proof.
  split; [discriminate|]. split; [discriminate|].
  split; [repeat constructor|].
  destruct (all_similarities_one_entry_per_category dot sample_str
              sample_registry similarity_threshold [1 # 10; 9 # 10]%Q)
    with (idx := 1) as (r & Hstep & _ & _ & Hlen);
    [discriminate | discriminate | repeat constructor |].
  exists r. split; [exact Hstep | exact Hlen].
Defined.



(** ** The evaluation engine *)

Lemma Qplus_comm_L (x y : Q) : (x + y)%Q = (y + x)%Q.
Proof.
  unfold Qplus. f_equal; [apply Z.add_comm | apply Pos.mul_comm].
Qed.

Lemma Qplus_swap_L (x y z : Q) : (x + (y + z))%Q = (y + (x + z))%Q.
Proof.
  destruct x as [a b], y as [c d], z as [e f]. unfold Qplus. simpl.
  f_equal.
  - rewrite !Pos2Z.inj_mul. ring.
  - rewrite !Pos.mul_assoc. f_equal. apply Pos.mul_comm.
Qed.

Lemma Qsum_Permutation (l l' : list Q) : l ≡ₚ l' -> Qsum l = Qsum l'.
Proof.
  induction 1 as [|x l l' _ IH|x y l|l l' l'' _ IH1 _ IH2]; simpl.
  - done.
  - by rewrite IH.
  - apply Qplus_swap_L.
  - congruence.
Qed.

Lemma Qsum_const (c : Q) (l : list Q) :
  Forall (fun v => v = c) l ->
  (Qsum l == inject_Z (Z.of_nat (length l)) * c)%Q.
Proof.
  induction 1 as [|x l -> _ IH]; simpl.
  - ring.
  - fold (Qsum l). rewrite IH, Nat2Z.inj_succ. unfold Z.succ.
    rewrite inject_Z_plus. ring.
Qed.

Lemma dict_values_length {V : Type} (d : gmap DictKey V) :
  length (dict_values d) = size d.
Proof. unfold dict_values. by rewrite length_fmap, length_map_to_list. Qed.

Lemma dict_values_Forall {V : Type} (P : V -> Prop) (d : gmap DictKey V) :
  (forall k v, d !! k = Some v -> P v) -> Forall P (dict_values d).
Proof.
  intros H. apply Forall_forall. intros v Hv.
  apply list_elem_of_fmap in Hv as ([k v'] & -> & Hkv).
  apply elem_of_map_to_list in Hkv. eauto.
Qed.

Lemma get_classification_OK (expected : Classifications) (page : Z)
    (e : Classification) :
  get_classification expected page = OK e ->
  e ∈ classifications expected /\ page_number e = page.
Proof.
  unfold get_classification.
  destruct (find _ _) as [c|] eqn:Hf; [|discriminate].
  intros [= <-]. apply find_some in Hf as [Hin Heq].
  split; [by apply list_elem_of_In | by apply Z.eqb_eq].
Qed.

Lemma get_classification_absent (expected : Classifications) (page : Z) :
  (forall e, e ∈ classifications expected -> page_number e <> page) ->
  get_classification expected page = Raise (NotFoundError page).
Proof.
  intros Habs. unfold get_classification.
  destruct (find _ _) as [c|] eqn:Hf; [|done].
  apply find_some in Hf as [Hin Heq].
  apply list_elem_of_In in Hin. apply Z.eqb_eq in Heq.
  by destruct (Habs c Hin).
Qed.

Lemma get_classification_present (expected : Classifications)
    (e : Classification) :
  e ∈ classifications expected ->
  exists e', get_classification expected (page_number e) = OK e'.
Proof.
  intros Hin. unfold get_classification.
  destruct (find _ _) as [c|] eqn:Hf; [eauto|].
  apply list_elem_of_In in Hin.
  apply (find_none _ _ Hf) in Hin. simpl in Hin.
  by rewrite Z.eqb_refl in Hin.
Qed.

(** The loop raises at the first record whose page number is absent from
    the expected set, and only there. *)
Lemma accuracy_loop_returns (expected : Classifications)
    (actual : list Classification) :
  forall accuracy,
    (forall c, c ∈ actual ->
       exists e, get_classification expected (page_number c) = OK e) ->
    exists out, accuracy_loop expected actual accuracy = OK out.
Proof.
  induction actual as [|c actual IH]; intros accuracy Hall; simpl.
  - eauto.
  - destruct (Hall c) as [e ->]; [by left|]. simpl.
    apply IH. intros c' Hc'. apply Hall. by right.
Qed.

Lemma accuracy_loop_not_found (expected : Classifications)
    (actual : list Classification) :
  forall accuracy c,
    c ∈ actual ->
    (forall e, e ∈ classifications expected ->
               page_number e <> page_number c) ->
    exists c',
      c' ∈ actual /\
      (forall e, e ∈ classifications expected ->
                 page_number e <> page_number c') /\
      accuracy_loop expected actual accuracy
        = Raise (NotFoundError (page_number c')).
Proof.
  induction actual as [|c0 actual IH]; intros accuracy c Hin Habs.
  - by apply elem_of_nil in Hin.
  - simpl.
    destruct (get_classification expected (page_number c0)) as [e|err] eqn:Hg.
    + simpl. apply elem_of_cons in Hin as [->|Hin].
      * rewrite (get_classification_absent _ _ Habs) in Hg. discriminate.
      * destruct (IH (<[KInt (page_number c0) :=
                          indicator (classification e) (classification c0)]>
                        accuracy) c Hin Habs) as (c' & Hc' & Habs' & Hrun).
        exists c'. split; [by right|]. done.
    + simpl. exists c0. split; [by left|].
      unfold get_classification in Hg.
      destruct (find _ _) as [x|] eqn:Hf; [discriminate|].
      injection Hg as <-. split; [|done].
      intros e He Heq. apply list_elem_of_In in He.
      apply (find_none _ _ Hf) in He. simpl in He.
      rewrite Heq, Z.eqb_refl in He. discriminate.
Qed.

Lemma accuracy_loop_indicators (expected : Classifications)
    (actual : list Classification) :
  forall done accuracy out,
    accuracy_loop expected actual accuracy = OK out ->
    indicators_of expected done accuracy ->
    indicators_of expected (done ++ actual) out.
Proof.
  induction actual as [|c actual IH]; intros done accuracy out Hrun Hinv;
    simpl in Hrun.
  - injection Hrun as <-. by rewrite app_nil_r.
  - apply bind_OK in Hrun as (e & Hget & Hrun).
    replace (done ++ c :: actual) with ((done ++ [c]) ++ actual)
      by (by rewrite <- app_assoc).
    apply (IH _ _ _ Hrun). destruct Hinv as [Hent Hdom]. split.
    + intros k v Hk. apply lookup_insert_Some in Hk as [[<- <-]|[Hne Hk]].
      * exists c, e. split; [|done]. apply elem_of_app. right. by left.
      * destruct (Hent k v Hk) as (c' & e' & Hc' & H').
        exists c', e'. split; [|done]. apply elem_of_app. by left.
    + intros c' Hc'. apply elem_of_app in Hc' as [Hc'|Hc'].
      * destruct (decide (KInt (page_number c) = KInt (page_number c')))
          as [Heq|Hne].
        -- rewrite Heq, lookup_insert_eq. eauto.
        -- rewrite lookup_insert_ne by done. by apply Hdom.
      * apply list_elem_of_singleton in Hc' as ->.
        rewrite lookup_insert_eq. eauto.
Qed.

Lemma indicators_of_empty (expected : Classifications) :
  indicators_of expected [] ∅.
Proof.
  split.
  - intros k v Hk. by rewrite lookup_empty in Hk.
  - intros c Hc. by apply elem_of_nil in Hc.
Qed.

Lemma indicators_of_no_string_key (expected : Classifications)
    (l : list Classification) (d : gmap DictKey Q) (s : string) :
  indicators_of expected l d -> d !! KStr s = None.
Proof.
  intros [Hent _]. destruct (d !! KStr s) as [v|] eqn:Hk; [|done].
  destruct (Hent _ _ Hk) as (c & e & _ & Heq & _). discriminate.
Qed.

Lemma indicators_of_size (expected : Classifications)
    (l : list Classification) (d : gmap DictKey Q) :
  indicators_of expected l d -> l <> [] -> size d <> 0.
Proof.
  intros [_ Hdom] Hne. destruct l as [|c l]; [done|].
  destruct (Hdom c) as [v Hv]; [by left|].
  intros Hsz. apply map_size_empty_iff in Hsz. subst d.
  by rewrite lookup_empty in Hv.
Qed.

Lemma indicator_values (a b : string) :
  indicator a b = 0%Q \/ indicator a b = 1%Q.
Proof. unfold indicator. destruct (String.eqb a b); auto. Qed.

Lemma inject_Z_of_nat_nonzero (n : nat) :
  n <> 0 -> ~ (inject_Z (Z.of_nat n) == 0)%Q.
Proof.
  intros Hn H. unfold Qeq, inject_Z in H. simpl in H. lia.
Qed.

Lemma py_truediv_OK (a : Q) (n : nat) :
  n <> 0 -> py_truediv a n = OK (a / inject_Z (Z.of_nat n))%Q.
Proof. destruct n; [done|]. reflexivity. Qed.

(** C3.  When the actual set is not empty and every page number of it has
    an expected classification, the accuracy cell returns a report whose
    [overall] entry is the sum of the other entries divided by their
    number; these other entries are the 0/1 correctness indicators, one
    per page number of the actual set.  It is [1] when every label matches
    the expected one and [0] when none does. *)
Theorem accuracy_overall_is_mean_of_indicators
    (expected actual : Classifications) :
  classifications actual <> [] ->
  (forall c, c ∈ classifications actual ->
     exists e, get_classification expected (page_number c) = OK e) ->
  exists report overall,
    calculate_accuracy expected actual = OK report /\
    report !! overall_key = Some overall /\
    indicators_of expected (classifications actual)
      (delete overall_key report) /\
    (forall k v, delete overall_key report !! k = Some v ->
       v = 0%Q \/ v = 1%Q) /\
    (overall ==
       Qsum (dict_values (delete overall_key report))
       / inject_Z (Z.of_nat (size (delete overall_key report))))%Q /\
    ((forall c, c ∈ classifications actual -> matches_expected expected c) ->
     (overall == 1)%Q) /\
    ((forall c, c ∈ classifications actual ->
        differs_from_expected expected c) ->
     (overall == 0)%Q).
Proof.
  intros Hne Hfound.
  destruct (accuracy_loop_returns expected (classifications actual) ∅ Hfound)
    as [accuracy Hloop].
  pose proof (accuracy_loop_indicators expected (classifications actual)
                [] ∅ accuracy Hloop (indicators_of_empty expected)) as Hinv.
  simpl in Hinv.
  pose proof (indicators_of_size _ _ _ Hinv Hne) as Hsize.
  pose proof (indicators_of_no_string_key _ _ _ "overall" Hinv) as Hfresh.
  set (overall := (Qsum (dict_values accuracy)
                   / inject_Z (Z.of_nat (size accuracy)))%Q).
  exists (<[overall_key := overall]> accuracy), overall.
  assert (delete overall_key (<[overall_key := overall]> accuracy) = accuracy)
    as Hdel by (by apply delete_insert_id).
  rewrite Hdel.
  split.
  { unfold calculate_accuracy. rewrite Hloop. simpl.
    by rewrite (py_truediv_OK _ _ Hsize). }
  split; [apply lookup_insert_eq|].
  split; [done|].
  split.
  { intros k v Hk. destruct Hinv as [Hent _].
    destruct (Hent k v Hk) as (c & e & _ & _ & _ & ->).
    apply indicator_values. }
  split; [reflexivity|].
  pose proof (inject_Z_of_nat_nonzero _ Hsize) as Hnz.
  split.
  - intros Hmatch.
    assert (Forall (fun v => v = 1%Q) (dict_values accuracy)) as Hall.
    { apply dict_values_Forall. intros k v Hk. destruct Hinv as [Hent _].
      destruct (Hent k v Hk) as (c & e & Hc & _ & Hget & ->).
      destruct (Hmatch c Hc) as (e' & Hget' & Heq).
      rewrite Hget in Hget'. injection Hget' as <-.
      unfold indicator. by rewrite Heq, String.eqb_refl. }
    unfold overall. rewrite (Qsum_const _ _ Hall), dict_values_length.
    by field.
  - intros Hdiff.
    assert (Forall (fun v => v = 0%Q) (dict_values accuracy)) as Hall.
    { apply dict_values_Forall. intros k v Hk. destruct Hinv as [Hent _].
      destruct (Hent k v Hk) as (c & e & Hc & _ & Hget & ->).
      destruct (Hdiff c Hc) as (e' & Hget' & Hneq).
      rewrite Hget in Hget'. injection Hget' as <-.
      unfold indicator.
      destruct (String.eqb_spec (classification e) (classification c));
        [done|reflexivity]. }
    unfold overall. rewrite (Qsum_const _ _ Hall), dict_values_length.
    by field.
Qed.

Lemma accuracy_overall_is_mean_of_indicators_witness :
  exists report,
    calculate_accuracy expected_embeddings
      {| classifications :=
           [ expected_page 0 "Insurance Policy";
             expected_page 5 "Terms and Conditions" ] |}
    = OK report /\ is_Some (report !! overall_key).
Proof.
  destruct (accuracy_overall_is_mean_of_indicators expected_embeddings
              {| classifications :=
                   [ expected_page 0 "Insurance Policy";
                     expected_page 5 "Terms and Conditions" ] |})
    as (report & overall & Hrun & Hov & _).
  - discriminate.
  - intros c Hc. simpl in Hc.
    apply elem_of_cons in Hc as [->|Hc];
      [eexists; vm_compute; reflexivity|].
    apply list_elem_of_singleton in Hc as ->.
    eexists; vm_compute; reflexivity.
  - exists report. split; [exact Hrun|]. rewrite Hov. eauto.
Defined.

(** On the tables of the notebook: the expected set evaluated against
    itself has accuracy [1], and the two-page set above has accuracy
    [1/2]. *)
Example accuracy_of_expected_against_itself :
  exists report overall,
    calculate_accuracy expected_embeddings expected_embeddings = OK report /\
    report !! overall_key = Some overall /\ (overall == 1)%Q.
Proof. eexists _, _. split; [|split]; [reflexivity | vm_compute; reflexivity | reflexivity]. Qed.

Example accuracy_of_half_right_set :
  exists report overall,
    calculate_accuracy expected_embeddings
      {| classifications :=
           [ expected_page 0 "Insurance Policy";
             expected_page 5 "Terms and Conditions" ] |}
    = OK report /\
    report !! overall_key = Some overall /\ (overall == 1 # 2)%Q.
Proof. eexists _, _. split; [|split]; [reflexivity | vm_compute; reflexivity | reflexivity]. Qed.

(** C4.  When a record of the actual set carries a page number that the
    expected set lacks, the accuracy cell raises [NotFoundError] for such a
    page number; no report is produced, so the page is not scored. *)
Theorem evaluation_fails_on_missing_page
    (expected actual : Classifications) (c : Classification) :
  c ∈ classifications actual ->
  (forall e, e ∈ classifications expected ->
             page_number e <> page_number c) ->
  exists c',
    c' ∈ classifications actual /\
    (forall e, e ∈ classifications expected ->
               page_number e <> page_number c') /\
    calculate_accuracy expected actual
      = Raise (NotFoundError (page_number c')).
Proof.
  intros Hin Habs.
  destruct (accuracy_loop_not_found expected (classifications actual) ∅ c
              Hin Habs) as (c' & Hc' & Habs' & Hrun).
  exists c'. split; [done|]. split; [done|].
  unfold calculate_accuracy. by rewrite Hrun.
Qed.

Lemma evaluation_fails_on_missing_page_witness :
  exists c',
    calculate_accuracy expected_openai
      {| classifications := [ expected_page 0 "Insurance Policy" ] |}
    = Raise (NotFoundError (page_number c')).
Proof.
  destruct (evaluation_fails_on_missing_page expected_openai
              {| classifications := [ expected_page 0 "Insurance Policy" ] |}
              (expected_page 0 "Insurance Policy"))
    as (c' & _ & _ & Hrun).
  - simpl. by left.
  - intros e He. simpl in He.
    repeat (apply elem_of_cons in He as [->|He]; [discriminate|]).
    by apply elem_of_nil in He.
  - exists c'. exact Hrun.
Defined.

(** C9.  On an actual set without pages the accuracy cell raises
    [ZeroDivisionError]; on a set with at least one page it never does:
    whenever the loop returns, the division has a result. *)
Theorem empty_set_raises_zero_division (expected : Classifications) :
  calculate_accuracy expected {| classifications := [] |}
    = Raise ZeroDivisionError /\
  forall actual,
    classifications actual <> [] ->
    calculate_accuracy expected actual <> Raise ZeroDivisionError /\
    forall accuracy,
      accuracy_loop expected (classifications actual) ∅ = OK accuracy ->
      size accuracy <> 0 /\
      py_truediv (Qsum (dict_values accuracy)) (size accuracy)
        = OK (Qsum (dict_values accuracy)
              / inject_Z (Z.of_nat (size accuracy)))%Q.
Proof.
  split; [reflexivity|].
  intros actual Hne.
  assert (forall accuracy,
            accuracy_loop expected (classifications actual) ∅ = OK accuracy ->
            size accuracy <> 0) as Hsize.
  { intros accuracy Hloop.
    pose proof (accuracy_loop_indicators expected (classifications actual)
                  [] ∅ accuracy Hloop (indicators_of_empty expected)) as Hinv.
    by apply (indicators_of_size _ _ _ Hinv). }
  split.
  - unfold calculate_accuracy.
    destruct (accuracy_loop expected (classifications actual) ∅)
      as [accuracy|err] eqn:Hloop; simpl.
    + rewrite (py_truediv_OK _ _ (Hsize accuracy eq_refl)). simpl. discriminate.
    + intros [= ->].
      clear Hsize. revert Hloop. generalize (∅ : gmap DictKey Q).
      induction (classifications actual) as [|c l IH]; intros acc Hloop;
        simpl in Hloop; [discriminate|].
      unfold get_classification in Hloop.
      destruct (find _ _); simpl in Hloop; [|discriminate].
      destruct l as [|c' l]; [simpl in Hloop; discriminate|].
      by apply (IH ltac:(discriminate) _ Hloop).
  - intros accuracy Hloop. split; [by apply Hsize|].
    apply py_truediv_OK. by apply Hsize.
Qed.

Lemma empty_set_raises_zero_division_witness :
  calculate_accuracy expected_embeddings
    {| classifications := [ expected_page 0 "Insurance Policy" ] |}
  <> Raise ZeroDivisionError.
Proof.
  apply (proj2 (empty_set_raises_zero_division expected_embeddings)
           {| classifications := [ expected_page 0 "Insurance Policy" ] |}).
  discriminate.
Defined.

(** ** Persistence *)

Section EmbeddingsNotebookFacts.

Variable working_dir : string.
Variable analyze_pages : string -> result (list string).
Variable get_embedding : string -> result (list Q).
Variable cosine : list Q -> list Q -> Q.
Variable str_float : Q -> string.
Variable total_elapsed : Q.
Variable to_json : DataClassificationResult -> result string.
Variable display_outputs : Classifications -> gmap DictKey Q -> result unit.


(** The three ways the notebook can go once the classification run is
    known: the run raised; the serialiser raised on the open file; the
    file was written and the display decided the end. *)
Lemma embeddings_notebook_outcome (fs : gmap string string) :
  match embeddings_classification_run working_dir analyze_pages
          get_embedding cosine str_float total_elapsed with
  | Raise e =>
      embeddings_notebook working_dir analyze_pages get_embedding cosine
        str_float total_elapsed to_json display_outputs fs
      = (fs, Raise e)
  | OK record =>
      match to_json record with
      | Raise e =>
          embeddings_notebook working_dir analyze_pages get_embedding
            cosine str_float total_elapsed to_json display_outputs fs
          = (<[embeddings_output_path working_dir := ""]> fs, Raise e)
      | OK content =>
          embeddings_notebook working_dir analyze_pages get_embedding
            cosine str_float total_elapsed to_json display_outputs fs
          = (<[embeddings_output_path working_dir := content]> fs,
             display_outputs (dcr_classification record)
               (dcr_accuracy record))
      end
  end.
Proof.
  unfold embeddings_notebook, write_result, cell_bind, compute,
    open_for_writing, write_text.
  destruct (embeddings_classification_run _ _ _ _ _ _) as [record|e];
    [|reflexivity].
  destruct (to_json record) as [content|e]; [|reflexivity].
  by rewrite insert_insert_eq.
Qed.


End EmbeddingsNotebookFacts.

Section OpenAINotebookFacts.

Variable working_dir : string.
Variable Image : Type.
Variable convert_from_bytes : string -> result (list Image).
Variable Choice : Type.
Variable parse_completion :
  list CategoryDef -> list Image -> result (option Classifications * Choice).
Variable evaluate_confidence_call :
  Classifications -> Choice -> result (gmap DictKey (option Q)).
Variable total_elapsed : Q.
Variable to_json : DataClassificationResult -> result string.
Variable display_outputs :
  Classifications -> gmap DictKey Q -> gmap DictKey (option Q) ->
  result unit.

Lemma openai_classification_run_OK (record : DataClassificationResult)
    (confidence : gmap DictKey (option Q)) :
  openai_classification_run working_dir Image convert_from_bytes Choice
    parse_completion evaluate_confidence_call total_elapsed
  = OK (record, confidence) ->
  exists pages choice doc accuracy,
    convert_from_bytes (fname working_dir) = OK pages /\
    parse_completion classification_defs pages = OK (Some doc, choice) /\
    calculate_accuracy expected_openai doc = OK accuracy /\
    evaluate_confidence_call doc choice = OK confidence /\
    record = {| dcr_classification := doc;
                dcr_accuracy := accuracy;
                dcr_execution_time := total_elapsed |}.
Proof.
  unfold openai_classification_run, parsed_classifications,
    vision_classifications. intros H.
  apply bind_OK in H as (pages & H1 & H).
  apply bind_OK in H as ([parsed choice] & H2 & H). simpl in H.
  apply bind_OK in H as (doc & H3 & H).
  apply bind_OK in H as (accuracy & H4 & H).
  apply bind_OK in H as (conf & H5 & H).
  injection H as <- <-.
  destruct parsed as [doc'|]; [|discriminate]. injection H3 as ->.
  exists pages, choice, doc, accuracy. done.
Qed.

Lemma openai_notebook_outcome (fs : gmap string string) :
  match openai_classification_run working_dir Image convert_from_bytes
          Choice parse_completion evaluate_confidence_call total_elapsed
  with
  | Raise e =>
      openai_notebook working_dir Image convert_from_bytes Choice
        parse_completion evaluate_confidence_call total_elapsed to_json
        display_outputs fs
      = (fs, Raise e)
  | OK run =>
      match to_json run.1 with
      | Raise e =>
          openai_notebook working_dir Image convert_from_bytes Choice
            parse_completion evaluate_confidence_call total_elapsed to_json
            display_outputs fs
          = (<[openai_output_path working_dir := ""]> fs, Raise e)
      | OK content =>
          openai_notebook working_dir Image convert_from_bytes Choice
            parse_completion evaluate_confidence_call total_elapsed to_json
            display_outputs fs
          = (<[openai_output_path working_dir := content]> fs,
             do overall <- dict_item run.2 (KStr "_overall") "_overall";
             display_outputs (dcr_classification run.1)
               (dcr_accuracy run.1) run.2)
      end
  end.
Proof.
  unfold openai_notebook, write_result, cell_bind, compute,
    open_for_writing, write_text.
  destruct (openai_classification_run _ _ _ _ _ _ _) as [run|e];
    [|reflexivity].
  destruct (to_json run.1) as [content|e]; [|reflexivity].
  rewrite insert_insert_eq.
  by destruct (dict_item run.2 (KStr "_overall") "_overall").
Qed.

Lemma openai_notebook_normal_end (fs : gmap string string) :
  (openai_notebook working_dir Image convert_from_bytes Choice
     parse_completion evaluate_confidence_call total_elapsed to_json
     display_outputs fs).2 = OK tt ->
  exists record confidence content,
    openai_classification_run working_dir Image convert_from_bytes Choice
      parse_completion evaluate_confidence_call total_elapsed
    = OK (record, confidence) /\
    to_json record = OK content /\
    is_Some (confidence !! KStr "_overall") /\
    display_outputs (dcr_classification record) (dcr_accuracy record)
      confidence = OK tt /\
    (openai_notebook working_dir Image convert_from_bytes Choice
       parse_completion evaluate_confidence_call total_elapsed to_json
       display_outputs fs).1
    = <[openai_output_path working_dir := content]> fs.
Proof.
  pose proof (openai_notebook_outcome fs) as Hout.
  destruct (openai_classification_run _ _ _ _ _ _ _)
    as [[record confidence]|e]; [|rewrite Hout; discriminate].
  simpl in Hout.
  destruct (to_json record) as [content|e] eqn:Hjson;
    [|rewrite Hout; discriminate].
  rewrite Hout. simpl. unfold dict_item.
  destruct (confidence !! KStr "_overall") as [overall|] eqn:Hoverall;
    [|discriminate].
  simpl. intros Hdisplay. exists record, confidence, content. eauto 10.
Qed.

End OpenAINotebookFacts.

(** C8.  In both notebooks the result file is touched only after the
    classification run (every provider call, the classification, the
    evaluation and, in the vision notebook, the confidence) has returned:
    when any of these raises, the notebook ends with that error and the
    file system as it found it; a file system that differs from the one
    found tells that the classification run returned; and a run that ends
    normally has written the serialised record of that classification run.
    The errors covered are those of the classification run; what the last
    cell leaves behind when the serialiser or the display raises is stated
    further below. *)
Theorem result_written_only_after_success :
  (forall (working_dir : string)
          (analyze_pages : string -> result (list string))
          (get_embedding : string -> result (list Q))
          (cosine : list Q -> list Q -> Q) (str_float : Q -> string)
          (total_elapsed : Q)
          (to_json : DataClassificationResult -> result string)
          (display_outputs :
             Classifications -> gmap DictKey Q -> result unit)
          (fs : gmap string string),
     let run :=
       embeddings_classification_run working_dir analyze_pages
         get_embedding cosine str_float total_elapsed in
     let out :=
       embeddings_notebook working_dir analyze_pages get_embedding cosine
         str_float total_elapsed to_json display_outputs fs in
     (forall e, run = Raise e -> out = (fs, Raise e)) /\
     (out.1 <> fs -> exists record, run = OK record) /\
     (out.2 = OK tt ->
      exists record content,
        run = OK record /\ to_json record = OK content /\
        out.1 = <[embeddings_output_path working_dir := content]> fs))
  /\
  (forall (working_dir : string) (Image : Type)
          (convert_from_bytes : string -> result (list Image))
          (Choice : Type)
          (parse_completion :
             list CategoryDef -> list Image ->
             result (option Classifications * Choice))
          (evaluate_confidence_call :
             Classifications -> Choice -> result (gmap DictKey (option Q)))
          (total_elapsed : Q)
          (to_json : DataClassificationResult -> result string)
          (display_outputs :
             Classifications -> gmap DictKey Q ->
             gmap DictKey (option Q) -> result unit)
          (fs : gmap string string),
     let run :=
       openai_classification_run working_dir Image convert_from_bytes
         Choice parse_completion evaluate_confidence_call total_elapsed in
     let out :=
       openai_notebook working_dir Image convert_from_bytes Choice
         parse_completion evaluate_confidence_call total_elapsed to_json
         display_outputs fs in
     (forall e, run = Raise e -> out = (fs, Raise e)) /\
     (out.1 <> fs -> exists record, run = OK record) /\
     (out.2 = OK tt ->
      exists record content,
        run = OK record /\ to_json record.1 = OK content /\
        out.1 = <[openai_output_path working_dir := content]> fs)).
Proof.
  split.
  - intros working_dir analyze_pages get_embedding cosine str_float
      total_elapsed to_json display_outputs fs run out.
    pose proof (embeddings_notebook_outcome working_dir analyze_pages
                  get_embedding cosine str_float total_elapsed to_json
                  display_outputs fs) as Hout.
    fold run out in Hout.
    destruct run as [record|e0].
    + split; [discriminate|]. split; [eauto|].
      destruct (to_json record) as [content|e1] eqn:Hjson.
      * rewrite Hout. simpl. eauto.
      * rewrite Hout. discriminate.
    + rewrite Hout. split; [by intros e [= <-]|].
      split; [done | discriminate].
  - intros working_dir Image convert_from_bytes Choice parse_completion
      evaluate_confidence_call total_elapsed to_json display_outputs fs
      run out.
    pose proof (openai_notebook_outcome working_dir Image convert_from_bytes
                  Choice parse_completion evaluate_confidence_call
                  total_elapsed to_json display_outputs fs) as Hout.
    fold run out in Hout.
    destruct run as [record|e0].
    + split; [discriminate|]. split; [eauto|].
      destruct (to_json record.1) as [content|e1] eqn:Hjson.
      * rewrite Hout. simpl. eauto.
      * rewrite Hout. discriminate.
    + rewrite Hout. split; [by intros e [= <-]|].
      split; [done | discriminate].
Qed.

(** A failed layout analysis leaves no file; a run over one page writes
    the result file. *)
Lemma result_written_only_after_success_witness :
  embeddings_notebook "/repo" failing_analyze_pages constant_embedding dot
    sample_str 1 sample_to_json sample_display ∅
  = (∅, Raise (ProviderError "layout analysis failed")) /\
  exists record content,
    sample_to_json record = OK content /\
    (embeddings_notebook "/repo" one_page_analyze_pages constant_embedding
       dot sample_str 1 sample_to_json sample_display ∅).1
    = {[ embeddings_output_path "/repo" := content ]}.
Proof.
  split.
  - apply (proj1 (proj1 result_written_only_after_success "/repo"
                    failing_analyze_pages constant_embedding dot sample_str
                    1%Q sample_to_json sample_display ∅)).
    reflexivity.
  - destruct (proj2 (proj2 (proj1 result_written_only_after_success "/repo"
                              one_page_analyze_pages constant_embedding dot
                              sample_str 1%Q sample_to_json sample_display
                              ∅)))
      as (record & content & _ & Hjson & Hfs).
    + vm_compute. reflexivity.
    + exists record, content. split; [exact Hjson|].
      rewrite Hfs. reflexivity.
Defined.

(** ** Page numbering *)

Lemma calculate_accuracy_found (expected actual : Classifications)
    (report : gmap DictKey Q) :
  calculate_accuracy expected actual = OK report ->
  forall c, c ∈ classifications actual ->
    exists e, e ∈ classifications expected /\
              page_number e = page_number c.
Proof.
  unfold calculate_accuracy. intros Hrun c Hc.
  apply bind_OK in Hrun as (accuracy & Hloop & _).
  pose proof (accuracy_loop_indicators expected (classifications actual)
                [] ∅ accuracy Hloop (indicators_of_empty expected))
    as [Hent Hdom].
  simpl in Hent, Hdom.
  destruct (Hdom c Hc) as [v Hv].
  destruct (Hent _ _ Hv) as (c' & e & _ & Hkey & Hget & _).
  injection Hkey as Hkey.
  apply get_classification_OK in Hget as [He Hpage].
  exists e. split; [done|]. congruence.
Qed.

(** C5 (as amended).  A set that the similarity strategy returns has one
    record per page embedding, the [i]-th one numbered [i]; the run
    returns on an empty document when the category embeddings have one
    length, and whenever the first page has a usable embedding and every
    page with an embedding fits the registry.  The set of the vision
    strategy is the parsed answer of the completion provider as it came;
    the expected set of that notebook is numbered from 1, and the accuracy
    cell returns only for answers whose page numbers all lie between 1 and
    13. *)
Theorem page_numbers_follow_enumeration
    (cosine : list Q -> list Q -> Q) (str_float : Q -> string)
    (registry : list Category) (threshold : Q) :
  (forall pages out,
     classify_pages cosine str_float registry threshold pages = OK out ->
     length (classifications out) = length pages /\
     forall i r, classifications out !! i = Some r ->
                 page_number r = Z.of_nat i) /\
  (rectangular (classification_embeddings registry) = true ->
   classify_pages cosine str_float registry threshold []
     = OK {| classifications := [] |}) /\
  (forall page_emb rest,
     registry <> [] -> page_emb <> [] ->
     pages_fit registry (page_emb :: rest) ->
     exists out,
       classify_pages cosine str_float registry threshold (page_emb :: rest)
         = OK out) /\
  (forall (Choice : Type) (parsed : option Classifications)
          (choice : Choice) (doc : Classifications),
     vision_classifications (parsed_classifications Choice (parsed, choice))
       = OK doc ->
     parsed = Some doc) /\
  (forall i e, classifications expected_openai !! i = Some e ->
               page_number e = (Z.of_nat i + 1)%Z) /\
  (forall doc report,
     calculate_accuracy expected_openai doc = OK report ->
     forall c, c ∈ classifications doc -> (1 <= page_number c <= 13)%Z).
Proof.
  split; [|split; [|split; [|split; [|split]]]].
  - intros pages out Hrun.
    apply classify_pages_inv in Hrun as [Hlen Hrecs].
    split; [done|]. intros i r Hr.
    assert (i < length pages) as Hi
      by (rewrite <- Hlen; by apply lookup_lt_Some in Hr).
    apply lookup_lt_is_Some_2 in Hi as [page_emb Hpage].
    destruct (Hrecs i page_emb Hpage) as (ei & ei' & r' & Hr' & Hstep).
    rewrite Hr in Hr'. injection Hr' as <-.
    by apply classify_page_inv in Hstep as [Hnum _].
  - intros Hrect. unfold classify_pages, np_array. by rewrite Hrect.
  - intros page_emb rest Hreg Hemb Hfit. by apply classify_pages_returns.
  - intros Choice parsed choice doc. unfold parsed_classifications. simpl.
    destruct parsed as [cs|]; simpl; [congruence | discriminate].
  - intros i e Hi.
    do 13 (destruct i as [|i]; [injection Hi as <-; reflexivity|]).
    discriminate.
  - intros doc report Hrun c Hc.
    destruct (calculate_accuracy_found _ _ _ Hrun c Hc) as (e & He & <-).
    simpl in He.
    repeat (apply elem_of_cons in He as [->|He]; [simpl; lia|]).
    by apply elem_of_nil in He.
Qed.

Lemma page_numbers_follow_enumeration_witness :
  sample_registry <> [] /\
  exists out,
    classify_pages dot sample_str sample_registry similarity_threshold
      sample_page_embeddings = OK out /\
    length (classifications out) = 3.
Proof.
  split; [discriminate|].
  destruct (page_numbers_follow_enumeration dot sample_str sample_registry
              similarity_threshold) as (Hnum & _ & Hret & _).
  destruct (Hret [9 # 10; 1 # 10]%Q [[1 # 10; 9 # 10]%Q; []])
    as [out Hout]; [discriminate | discriminate | |].
  { apply Forall_cons. split; [right; repeat constructor|].
    apply Forall_cons. split; [right; repeat constructor|].
    apply Forall_cons. split; [left; reflexivity|]. constructor. }
  exists out. split; [exact Hout|].
  apply (Hnum _ _ Hout).
Defined.

(** C5 as stated fails on the vision strategy: the parsed answer
    [[page 2: "Insurance Policy"]] is taken as the document's
    classifications and the accuracy cell returns a report for it, yet its
    first record is numbered 2. *)
Lemma vision_page_numbers_not_enforced :
  ~ (forall (parsed : option Classifications) (choice : unit)
            (doc : Classifications) (report : gmap DictKey Q),
       vision_classifications (parsed_classifications unit (parsed, choice))
         = OK doc ->
       calculate_accuracy expected_openai doc = OK report ->
       forall i c, classifications doc !! i = Some c ->
                   page_number c = (Z.of_nat i + 1)%Z).
Proof.
  intros H.
  pose (doc := {| classifications := [expected_page 2 "Insurance Policy"] |}).
  destruct (calculate_accuracy expected_openai doc) as [report|] eqn:Hrun;
    [|vm_compute in Hrun; discriminate].
  specialize (H (Some doc) tt doc report eq_refl Hrun 0%nat
                (expected_page 2 "Insurance Policy") eq_refl).
  discriminate H.
Qed.

(** ** Confidence of the vision strategy *)

Section ConfidenceFacts.

Import OpenAIConfidence.

Variable exp : Q -> Q.
Variable combine : list Q -> Q.

Lemma fill_confidences_string_key (pages : list (Z * option (list Q))) :
  forall (d : gmap DictKey (option Q)) (s : string),
    foldl (fun d pl => <[KInt pl.1 := page_confidence exp combine pl.2]> d)
      d pages !! KStr s = d !! KStr s.
Proof.
  induction pages as [|[p ls] pages IH]; intros d s; simpl; [done|].
  rewrite IH. by rewrite lookup_insert_ne.
Qed.

Lemma fill_confidences_other_page (pages : list (Z * option (list Q)))
    (p : Z) :
  (forall q ls, (q, ls) ∈ pages -> q <> p) ->
  forall d : gmap DictKey (option Q),
    foldl (fun d pl => <[KInt pl.1 := page_confidence exp combine pl.2]> d)
      d pages !! KInt p = d !! KInt p.
Proof.
  induction pages as [|[q ls] pages IH]; intros Hfresh d; simpl; [done|].
  rewrite IH.
  - rewrite lookup_insert_ne; [done|].
    intros [= Heq]. apply (Hfresh q ls); [by left | done].
  - intros q' ls' Hin. apply (Hfresh q' ls'). by right.
Qed.

Lemma fill_confidences_page (pages : list (Z * option (list Q))) (p : Z) :
  forall d : gmap DictKey (option Q),
    is_Some (d !! KInt p) \/ (exists ls, (p, ls) ∈ pages) ->
    is_Some
      (foldl (fun d pl =>
                <[KInt pl.1 := page_confidence exp combine pl.2]> d)
         d pages !! KInt p).
Proof.
  induction pages as [|[q ls'] pages IH]; intros d H; simpl.
  - destruct H as [H|[ls H]]; [done | by apply elem_of_nil in H].
  - apply IH. destruct H as [H|[ls H]].
    + left. apply lookup_insert_is_Some.
      destruct (decide (KInt q = KInt p)); auto.
    + apply elem_of_cons in H as [[= -> ->]|H]; [|eauto].
      left. rewrite lookup_insert_eq. eauto.
Qed.

Lemma fill_confidences_insert (pages : list (Z * option (list Q)))
    (p : Z) (c : option Q) :
  (forall q ls, (q, ls) ∈ pages -> q <> p) ->
  forall d : gmap DictKey (option Q),
    foldl (fun d pl => <[KInt pl.1 := page_confidence exp combine pl.2]> d)
      (<[KInt p := c]> d) pages
    = <[KInt p := c]>
        (foldl (fun d pl =>
                  <[KInt pl.1 := page_confidence exp combine pl.2]> d)
           d pages).
Proof.
  induction pages as [|[q ls] pages IH]; intros Hfresh d; simpl; [done|].
  rewrite <- IH.
  - f_equal. apply insert_insert_ne.
    intros [= Heq]. apply (Hfresh q ls); [by left | done].
  - intros q' ls' Hin. apply (Hfresh q' ls'). by right.
Qed.

Lemma defined_values_insert_undefined (d : gmap DictKey (option Q))
    (k : DictKey) :
  d !! k = None ->
  defined_values (<[k := None]> d) ≡ₚ defined_values d.
Proof.
  intros Hk. unfold defined_values, dict_values.
  rewrite (map_to_list_insert d k None Hk). reflexivity.
Qed.

(** With distinct page numbers the report holds one entry per page. *)
Lemma fill_confidences_to_list (pages : list (Z * option (list Q))) :
  NoDup pages.*1 ->
  forall d : gmap DictKey (option Q),
    (forall p ls, (p, ls) ∈ pages -> d !! KInt p = None) ->
    map_to_list
      (foldl (fun d pl => <[KInt pl.1 := page_confidence exp combine pl.2]> d)
         d pages)
    ≡ₚ map (fun pl => (KInt pl.1, page_confidence exp combine pl.2)) pages
       ++ map_to_list d.
Proof.
  induction pages as [|[p ls] pages IH]; intros Hnd d Hfresh; simpl;
    [done|].
  apply NoDup_cons in Hnd as [Hp Hnd].
  rewrite IH; [|done|].
  - rewrite map_to_list_insert by (apply (Hfresh p ls); by left).
    by rewrite Permutation_middle.
  - intros q ls' Hin. rewrite lookup_insert_ne.
    + apply (Hfresh q ls'). by right.
    + intros [= Heq]. apply Hp. rewrite Heq.
      apply list_elem_of_fmap. by exists (q, ls').
Qed.

Lemma page_confidences_to_list (pages : list (Z * option (list Q))) :
  NoDup pages.*1 ->
  map_to_list (page_confidences exp combine pages)
  ≡ₚ map (fun pl => (KInt pl.1, page_confidence exp combine pl.2)) pages.
Proof.
  intros Hnd. unfold page_confidences.
  rewrite (fill_confidences_to_list pages Hnd ∅)
    by (intros; apply lookup_empty).
  by rewrite map_to_list_empty, app_nil_r.
Qed.

Lemma defined_values_of_pages (pages : list (Z * option (list Q))) :
  NoDup pages.*1 ->
  defined_values (page_confidences exp combine pages)
  ≡ₚ omap (fun pl => page_confidence exp combine pl.2) pages.
Proof.
  intros Hnd. unfold defined_values, dict_values.
  rewrite (page_confidences_to_list pages Hnd).
  rewrite <- list_fmap_compose.
  clear Hnd. induction pages as [|[p ls] pages IH]; simpl; [done|].
  destruct (page_confidence exp combine ls); simpl; by rewrite IH.
Qed.

Lemma mean_Permutation (l l' : list Q) : l ≡ₚ l' -> mean l = mean l'.
Proof.
  intros Hp. unfold mean.
  destruct l as [|x l], l' as [|y l'].
  - done.
  - by apply Permutation_nil_cons in Hp.
  - symmetry in Hp. by apply Permutation_nil_cons in Hp.
  - by rewrite (Qsum_Permutation _ _ Hp), (Permutation_length Hp).
Qed.

Lemma Qsum_unit_interval (l : list Q) :
  Forall unit_interval l ->
  (0 <= Qsum l <= inject_Z (Z.of_nat (length l)))%Q.
Proof.
  induction 1 as [|x l [Hx0 Hx1] _ [IH0 IH1]]; simpl.
  - split; apply Qle_refl.
  - fold (Qsum l). rewrite Nat2Z.inj_succ. unfold Z.succ.
    rewrite inject_Z_plus. split.
    + replace 0%Q with (0 + 0)%Q by reflexivity.
      by apply Qplus_le_compat.
    + rewrite Qplus_comm. by apply Qplus_le_compat.
Qed.

Lemma mean_unit_interval (l : list Q) (m : Q) :
  Forall unit_interval l -> mean l = Some m -> unit_interval m.
Proof.
  intros Hall Hm. destruct l as [|x l]; [discriminate|].
  injection Hm as <-.
  destruct (Qsum_unit_interval _ Hall) as [H0 H1].
  assert (0 < inject_Z (Z.of_nat (length (x :: l))))%Q as Hpos.
  { unfold Qlt, inject_Z. simpl. lia. }
  split.
  - apply Qle_shift_div_l; [done|]. by rewrite Qmult_0_l.
  - apply Qle_shift_div_r; [done|]. by rewrite Qmult_1_l.
Qed.

Lemma fill_confidences_unit_interval
    (pages : list (Z * option (list Q))) :
  (forall l, (l <= 0)%Q -> unit_interval (exp l)) ->
  (forall ps, Forall unit_interval ps -> unit_interval (combine ps)) ->
  (forall p ls l, (p, Some ls) ∈ pages -> l ∈ ls -> (l <= 0)%Q) ->
  forall d : gmap DictKey (option Q),
    (forall k c, d !! k = Some (Some c) -> unit_interval c) ->
    forall k c,
      foldl (fun d pl =>
               <[KInt pl.1 := page_confidence exp combine pl.2]> d)
        d pages !! k = Some (Some c) ->
      unit_interval c.
Proof.
  intros Hexp Hcombine.
  induction pages as [|[q ls] pages IH]; intros Hneg d Hd k c; simpl;
    [by apply Hd|].
  apply IH.
  - intros p ls' l Hin. apply (Hneg p ls' l). by right.
  - intros k' c' Hk'.
    apply lookup_insert_Some in Hk' as [[_ Hc]|[_ Hk']]; [|by eapply Hd].
    destruct ls as [ls|]; [|discriminate]. simpl in Hc.
    injection Hc as <-. apply Hcombine, Forall_fmap, Forall_forall.
    intros l Hl. apply Hexp. apply (Hneg q ls l); [by left | done].
Qed.

End ConfidenceFacts.

Lemma product_unit_interval (ps : list Q) :
  Forall unit_interval ps -> unit_interval (product ps).
Proof.
  induction 1 as [|x l [Hx0 Hx1] _ [IH0 IH1]]; simpl.
  - split; [discriminate | apply Qle_refl].
  - fold (product l). split.
    + by apply Qmult_le_0_compat.
    + replace 1%Q with (1 * 1)%Q by reflexivity.
      by apply Qmult_le_compat_nonneg.
Qed.

Lemma sample_exp_unit_interval (l : Q) :
  (l <= 0)%Q -> unit_interval (sample_exp l).
Proof.
  intros Hl. unfold sample_exp.
  assert (1 <= 1 - l)%Q as H1.
  { unfold Qminus. rewrite <- (Qplus_0_r 1) at 1.
    apply Qplus_le_compat; [apply Qle_refl|].
    by apply (Qopp_le_compat l 0). }
  assert (0 < 1 - l)%Q as Hpos by (eapply Qlt_le_trans; [|exact H1]; reflexivity).
  split.
  - apply Qle_shift_div_l; [done|]. rewrite Qmult_0_l. discriminate.
  - apply Qle_shift_div_r; [done|]. by rewrite Qmult_1_l.
Qed.

(** C7.  The confidence report holds one entry per page and, under
    ['_overall'], the arithmetic mean of the per-page confidences that are
    defined: their sum over their number, and an undefined aggregate when
    no page has a defined confidence.  For a document with distinct page
    numbers the entry of a page is the combination of the linear
    probabilities of its label's tokens, or undefined when the page has no
    log-probability data, and the aggregate is the mean of the defined
    ones among these.  A page without log-probability data is recorded as
    undefined and leaves the aggregate as it is without that page.  When
    [exp] maps log-probabilities into the unit interval and the
    combination rule stays within it, every defined entry of the report,
    the aggregate included, lies between 0 and 1. *)
Theorem confidence_overall_ignores_undefined
    (exp : Q -> Q) (combine : list Q -> Q) :
  (forall pages,
     let report := OpenAIConfidence.evaluate_confidence exp combine pages in
     let values :=
       omap id (dict_values (delete OpenAIConfidence.overall_key report)) in
     (forall p ls, (p, ls) ∈ pages -> is_Some (report !! KInt p)) /\
     match values with
     | [] => report !! OpenAIConfidence.overall_key = Some None
     | _ :: _ =>
         exists overall,
           report !! OpenAIConfidence.overall_key = Some (Some overall) /\
           (overall
            == Qsum values / inject_Z (Z.of_nat (length values)))%Q
     end) /\
  (forall pages,
     NoDup pages.*1 ->
     let report := OpenAIConfidence.evaluate_confidence exp combine pages in
     let defined :=
       omap (fun pl => match pl.2 with
                       | Some ls => Some (combine (map exp ls))
                       | None => None
                       end) pages in
     (forall p ls, (p, Some ls) ∈ pages ->
        report !! KInt p = Some (Some (combine (map exp ls)))) /\
     (forall p, (p, None) ∈ pages -> report !! KInt p = Some None) /\
     match defined with
     | [] => report !! OpenAIConfidence.overall_key = Some None
     | _ :: _ =>
         exists overall,
           report !! OpenAIConfidence.overall_key = Some (Some overall) /\
           (overall
            == Qsum defined / inject_Z (Z.of_nat (length defined)))%Q
     end) /\
  (forall pages1 pages2 p,
     (forall q ls, (q, ls) ∈ pages1 ++ pages2 -> q <> p) ->
     let report :=
       OpenAIConfidence.evaluate_confidence exp combine
         (pages1 ++ (p, None) :: pages2) in
     report !! KInt p = Some None /\
     report !! OpenAIConfidence.overall_key
       = OpenAIConfidence.evaluate_confidence exp combine (pages1 ++ pages2)
           !! OpenAIConfidence.overall_key) /\
  ((forall l, (l <= 0)%Q -> unit_interval (exp l)) ->
   (forall ps, Forall unit_interval ps -> unit_interval (combine ps)) ->
   forall pages,
     (forall p ls l, (p, Some ls) ∈ pages -> l ∈ ls -> (l <= 0)%Q) ->
     forall k c,
       OpenAIConfidence.evaluate_confidence exp combine pages !! k
         = Some (Some c) ->
       unit_interval c).
Proof.
  split; [|split; [|split]].
  - intros pages report values. subst report values.
    unfold OpenAIConfidence.evaluate_confidence,
      OpenAIConfidence.overall_key.
    split.
    + intros p ls Hin. rewrite lookup_insert_ne by done.
      apply fill_confidences_page. eauto.
    + rewrite lookup_insert_eq, delete_insert_id
        by (by unfold OpenAIConfidence.page_confidences;
            rewrite fill_confidences_string_key).
      fold (OpenAIConfidence.defined_values
              (OpenAIConfidence.page_confidences exp combine pages)).
      destruct (OpenAIConfidence.defined_values _) as [|v values];
        [done|].
      eexists. split; [reflexivity|]. apply Qeq_refl.
  - intros pages Hnd report defined. subst report defined.
    pose proof (page_confidences_to_list exp combine pages Hnd) as Hlist.
    unfold OpenAIConfidence.evaluate_confidence,
      OpenAIConfidence.overall_key.
    split; [|split].
    + intros p ls Hin. rewrite lookup_insert_ne by done.
      apply elem_of_map_to_list. rewrite Hlist.
      apply list_elem_of_fmap. by exists (p, Some ls).
    + intros p Hin. rewrite lookup_insert_ne by done.
      apply elem_of_map_to_list. rewrite Hlist.
      apply list_elem_of_fmap. by exists (p, None).
    + rewrite lookup_insert_eq.
      rewrite (mean_Permutation _ _
                 (defined_values_of_pages exp combine pages Hnd)).
      unfold OpenAIConfidence.page_confidence.
      destruct (omap _ pages) as [|v values]; [done|].
      eexists. split; [reflexivity|]. apply Qeq_refl.
  - intros pages1 pages2 p Hfresh report. subst report.
    unfold OpenAIConfidence.evaluate_confidence,
      OpenAIConfidence.page_confidences, OpenAIConfidence.overall_key.
    rewrite !foldl_app. simpl.
    rewrite (fill_confidences_insert exp combine pages2 p None)
      by (intros q ls Hin; apply (Hfresh q ls), elem_of_app; by right).
    rewrite <- foldl_app.
    split.
    + rewrite lookup_insert_ne by done. apply lookup_insert_eq.
    + rewrite !lookup_insert_eq. f_equal.
      apply mean_Permutation, defined_values_insert_undefined.
      rewrite (fill_confidences_other_page exp combine _ p Hfresh).
      apply lookup_empty.
  - intros Hexp Hcombine pages Hneg k c.
    unfold OpenAIConfidence.evaluate_confidence,
      OpenAIConfidence.page_confidences, OpenAIConfidence.overall_key.
    pose proof (fill_confidences_unit_interval exp combine pages Hexp
                  Hcombine Hneg ∅
                  ltac:(intros k' c' Hk'; by rewrite lookup_empty in Hk'))
      as Hpages.
    intros Hk. apply lookup_insert_Some in Hk as [[_ Hm]|[_ Hk]];
      [|by eapply Hpages].
    eapply mean_unit_interval; [|exact Hm].
    apply Forall_forall. intros v Hv.
    unfold OpenAIConfidence.defined_values in Hv.
    apply list_elem_of_omap in Hv as (o & Ho & Hov). simpl in Hov. subst o.
    unfold dict_values in Ho.
    apply list_elem_of_fmap in Ho as ([k' o'] & Heq & Hin). simpl in Heq.
    subst o'. apply elem_of_map_to_list in Hin. by eapply Hpages.
Qed.

(** Page 1 with one token of log-probability -1/10 and page 2 without
    data: the aggregate is the confidence of page 1, 10/11, with or
    without page 2, and lies in the unit interval. *)
Lemma confidence_overall_ignores_undefined_witness :
  (exists overall,
     OpenAIConfidence.evaluate_confidence sample_exp product
       [(1%Z, Some [- (1 # 10)]%Q); (2%Z, None)]
       !! OpenAIConfidence.overall_key = Some (Some overall) /\
     (overall == 10 # 11)%Q) /\
  OpenAIConfidence.evaluate_confidence sample_exp product
    ([(1%Z, Some [- (1 # 10)]%Q)] ++ [(2%Z, None)])
    !! OpenAIConfidence.overall_key
  = OpenAIConfidence.evaluate_confidence sample_exp product
      [(1%Z, Some [- (1 # 10)]%Q)] !! OpenAIConfidence.overall_key
  /\ forall k c,
       OpenAIConfidence.evaluate_confidence sample_exp product
         [(1%Z, Some [- (1 # 10)]%Q)] !! k = Some (Some c) ->
       unit_interval c.
Proof.
  destruct (confidence_overall_ignores_undefined sample_exp product)
    as (_ & Hmean & Hinject & Hrange).
  split; [|split].
  - destruct (Hmean [(1%Z, Some [- (1 # 10)]%Q); (2%Z, None)])
      as (_ & _ & overall & Hov & Heq).
    + apply NoDup_cons. split.
      * intros Hin. apply list_elem_of_singleton in Hin. discriminate Hin.
      * apply NoDup_singleton.
    + exists overall. split; [exact Hov|].
      rewrite Heq. reflexivity.
  - destruct (Hinject [(1%Z, Some [- (1 # 10)]%Q)] [] 2%Z) as [_ Hov].
    + intros q ls Hin ->. simpl in Hin.
      apply list_elem_of_singleton in Hin. discriminate Hin.
    + exact Hov.
  - apply (Hrange sample_exp_unit_interval product_unit_interval).
    intros p ls l Hin Hl.
    apply list_elem_of_singleton in Hin. injection Hin as _ ->.
    apply list_elem_of_singleton in Hl. subst l. discriminate.
Defined.

(** On a sample: with a certain page 1 and a page 2 without
    log-probability data, the aggregate is the confidence of page 1 alone;
    page 2 is reported as undefined, and counted as zero it would have
    halved the aggregate. *)
Example confidence_of_one_defined_page :
  exists overall,
    OpenAIConfidence.evaluate_confidence sample_exp product
      [(1%Z, Some [0%Q]); (2%Z, None)] !! OpenAIConfidence.overall_key
    = Some (Some overall) /\
    (overall == 1)%Q /\
    OpenAIConfidence.evaluate_confidence sample_exp product
      [(1%Z, Some [0%Q]); (2%Z, None)] !! KInt 2 = Some None.
Proof.
  eexists. split; [vm_compute; reflexivity|]. split; reflexivity.
Qed.

(** ** Further facts on the similarity classifier *)

Section SimilarityRunFacts.

Variable cosine : list Q -> list Q -> Q.
Variable str_float : Q -> string.
Variable registry : list Category.

(** An iteration that returns on a usable page had a registry of the
    page's dimension. *)
Lemma classify_page_fits (threshold : Q) (env : Env) (idx : nat)
    (page_emb : list Q) (out : Env * Classification) :
  classify_page cosine str_float registry threshold env idx page_emb
    = OK out ->
  page_emb <> [] ->
  registry <> [] /\ dimension_matches registry page_emb.
Proof.
  intros Hstep Hemb. destruct page_emb as [|x xs]; [done|].
  unfold classify_page in Hstep.
  apply bind_OK in Hstep as (env' & Hbranch & _).
  unfold classify_branch in Hbranch.
  apply bind_OK in Hbranch as (sims & Hrow & _).
  by apply cosine_similarity_row_OK in Hrow as (_ & Hreg & Hdim).
Qed.

(** What one iteration can append: on a page without embedding the label
    is ["Unclassified"]; on a usable page the registry is not empty and
    the record is the one of the best match. *)
Lemma classify_page_cases (threshold : Q) (env env' : Env) (idx : nat)
    (page_emb : list Q) (r : Classification) :
  classify_page cosine str_float registry threshold env idx page_emb
    = OK (env', r) ->
  (page_emb = [] /\ classification r = Unclassified /\
   v_best_similarity env = Some (similarity r) /\
   v_all_similarities env = Some (all_similarities r) /\
   v_best_similarity env' = v_best_similarity env /\
   v_all_similarities env' = v_all_similarities env) \/
  (page_emb <> [] /\ registry <> [] /\
   exists j best cls,
     first_max (page_similarities cosine registry page_emb) j best /\
     registry !! j = Some cls /\
     r = usable_record cosine str_float registry threshold idx page_emb
           best cls /\
     v_best_similarity env' = Some best /\
     v_all_similarities env'
       = Some (build_all_similarities str_float registry
                 (page_similarities cosine registry page_emb))).
Proof.
  intros Hstep. destruct page_emb as [|x xs].
  - left. unfold classify_page in Hstep. simpl in Hstep.
    destruct (v_best_similarity env) as [b|] eqn:Hb; [|discriminate].
    destruct (v_all_similarities env) as [a|] eqn:Ha; [|discriminate].
    simpl in Hstep. injection Hstep as <- <-. simpl. done.
  - right. split; [done|].
    destruct (classify_page_fits _ _ _ _ _ Hstep) as [Hreg Hdim]; [done|].
    split; [done|].
    destruct (classify_page_usable cosine str_float registry threshold env
                idx (x :: xs) Hreg)
      as (env2 & j & best & cls & Hfm & Hcls & Hrun & Hb & Ha); [done..|].
    rewrite Hrun in Hstep. injection Hstep as <- <-.
    exists j, best, cls. done.
Qed.


Lemma classify_page_raise_threshold (t1 t2 : Q) (env1 env2 env1' : Env)
    (idx : nat) (page_emb : list Q) (r1 : Classification) :
  (t1 <= t2)%Q -> env_agree env1 env2 ->
  classify_page cosine str_float registry t1 env1 idx page_emb
    = OK (env1', r1) ->
  exists env2' r2,
    classify_page cosine str_float registry t2 env2 idx page_emb
      = OK (env2', r2) /\
    env_agree env1' env2' /\ label_kept_or_dropped r1 r2.
Proof.
  intros Hle [Hb Ha] Hstep.
  pose proof (classify_page_inv _ _ _ _ _ _ _ _ _ Hstep) as [Hnum _].
  destruct (classify_page_cases t1 _ _ _ _ _ Hstep)
    as [(-> & Hlab & Hb1 & Ha1 & Hb1' & Ha1')
       |(Hemb & Hreg & j & best & cls & Hfm & Hcls & -> & Hb1' & Ha1')].
  - rewrite Hb in Hb1. rewrite Ha in Ha1.
    destruct (classify_page_empty cosine str_float registry t2 env2 idx
                _ _ Hb1 Ha1) as (env2' & Hrun & Hb2' & Ha2').
    eexists _, _. split; [exact Hrun|]. split.
    + split; congruence.
    + repeat split; simpl; auto.
  - simpl in Hnum.
    destruct (classify_page_fits _ _ _ _ _ Hstep Hemb) as [_ Hdim].
    destruct (best_match_exists cosine registry page_emb Hreg)
      as (j' & best' & cls' & Harg & Hfm' & Hcls').
    assert (j' = j /\ best' = best /\ cls' = cls) as (-> & -> & ->).
    { assert (j' = j) as ->.
      { destruct Hfm as (Hat & Hmax & Hfirst),
          Hfm' as (Hat' & Hmax' & Hfirst').
        destruct (Nat.lt_trichotomy j' j) as [Hlt|[Heq|Hgt]]; [|done|].
        - pose proof (Hfirst _ _ Hlt Hat') as H1.
          pose proof (Hmax' _ _ Hat) as H2.
          by apply Qlt_not_le in H1.
        - pose proof (Hfirst' _ _ Hgt Hat) as H1.
          pose proof (Hmax _ _ Hat') as H2.
          by apply Qlt_not_le in H1. }
      destruct Hfm as [Hat _], Hfm' as [Hat' _].
      split; [done|]. split; congruence. }
    destruct (classify_page_usable_at cosine str_float registry t2 page_emb
                j best cls Hreg Hemb Hdim Harg (proj1 Hfm) Hcls env2 idx)
      as (env2' & Hrun & Hb2' & Ha2').
    eexists _, _. split; [exact Hrun|]. split.
    + split; congruence.
    + repeat split; simpl; auto.
      destruct (Qle_bool t2 best) eqn:H2; [|by right].
      left. apply Qle_bool_iff in H2.
      assert (Qle_bool t1 best = true) as ->; [|done].
      apply Qle_bool_iff. by eapply Qle_trans.
Qed.

Lemma classify_loop_raise_threshold (t1 t2 : Q) (pages : list (list Q)) :
  (t1 <= t2)%Q ->
  forall env1 env2 idx acc1 acc2 out1,
    env_agree env1 env2 ->
    Forall2 label_kept_or_dropped acc1 acc2 ->
    classify_loop cosine str_float registry t1 env1 idx pages acc1
      = OK out1 ->
    exists out2,
      classify_loop cosine str_float registry t2 env2 idx pages acc2
        = OK out2 /\
      Forall2 label_kept_or_dropped out1 out2.
Proof.
  intros Hle. induction pages as [|p pages IH];
    intros env1 env2 idx acc1 acc2 out1 Henv Hacc Hrun; simpl in Hrun |- *.
  - injection Hrun as <-. eauto.
  - apply bind_OK in Hrun as ([env1' r1] & Hstep & Hrun). simpl in Hrun.
    destruct (classify_page_raise_threshold t1 t2 env1 env2 env1' idx p r1
                Hle Henv Hstep) as (env2' & r2 & -> & Henv' & Hrec).
    simpl. eapply IH; [exact Henv'| |exact Hrun].
    apply Forall2_app; [done|]. by constructor.
Qed.

(** A usable page of another dimension than the category embeddings makes
    the iteration raise, whatever the kernel holds. *)
Lemma classify_page_misfit (threshold : Q) (env : Env) (idx : nat)
    (page_emb : list Q) :
  page_emb <> [] -> ~ dimension_matches registry page_emb ->
  classify_page cosine str_float registry threshold env idx page_emb
    = Raise ValueError.
Proof.
  intros Hemb Hdim. destruct page_emb as [|x xs]; [done|].
  unfold classify_page, classify_branch, cosine_similarity_row.
  destruct (classification_embeddings registry) as [|row rows] eqn:Hrows;
    [reflexivity|].
  destruct (forallb _ (row :: rows)) eqn:Hall; [|reflexivity].
  exfalso. apply Hdim. apply dimension_matches_forallb. by rewrite Hrows.
Qed.

Lemma dimension_matches_dec (page_emb : list Q) :
  dimension_matches registry page_emb \/
  ~ dimension_matches registry page_emb.
Proof.
  destruct (forallb (fun row => Nat.eqb (length row) (length page_emb))
              (classification_embeddings registry)) eqn:Hall.
  - left. by apply dimension_matches_forallb.
  - right. intros H. apply dimension_matches_forallb in H. congruence.
Qed.

(** Once the scores of an earlier page are bound, the loop raises
    [ValueError] when a later usable page does not fit the registry. *)
Lemma classify_loop_misfit (threshold : Q) (pages : list (list Q)) :
  registry <> [] -> ~ pages_fit registry pages ->
  forall env idx acc,
    is_Some (v_best_similarity env) -> is_Some (v_all_similarities env) ->
    classify_loop cosine str_float registry threshold env idx pages acc
      = Raise ValueError.
Proof.
  intros Hreg.
  induction pages as [|p pages IH]; intros Hfit env idx acc Hb Ha.
  - exfalso. apply Hfit. constructor.
  - simpl. destruct p as [|x xs].
    + destruct Hb as [b Hb], Ha as [a Ha].
      destruct (classify_page_empty cosine str_float registry threshold env
                  idx b a Hb Ha) as (env' & -> & Hb' & Ha').
      simpl. apply IH; eauto.
      intros Hrest. apply Hfit. apply Forall_cons. split; [by left|done].
    + destruct (dimension_matches_dec (x :: xs)) as [Hdim|Hdim].
      * destruct (classify_page_usable cosine str_float registry threshold
                    env idx (x :: xs) Hreg)
          as (env' & j & best & cls & _ & _ & -> & Hb' & Ha'); [done..|].
        simpl. apply IH; eauto.
        intros Hrest. apply Hfit. apply Forall_cons. split; [by right|done].
      * by rewrite classify_page_misfit.
Qed.

Lemma classify_pages_misfit (threshold : Q) (page_emb : list Q)
    (rest : list (list Q)) :
  rectangular (classification_embeddings registry) = true ->
  page_emb <> [] -> ~ pages_fit registry (page_emb :: rest) ->
  classify_pages cosine str_float registry threshold (page_emb :: rest)
    = Raise ValueError.
Proof.
  intros Hrect Hemb Hfit. unfold classify_pages, np_array.
  rewrite Hrect. simpl.
  destruct (dimension_matches_dec page_emb) as [Hdim|Hdim].
  - destruct registry as [|c cs] eqn:Hregistry.
    { exfalso. apply Hfit. apply Forall_forall. intros p _.
      right. constructor. }
    rewrite <- Hregistry in *.
    assert (registry <> []) as Hreg by (by rewrite Hregistry).
    destruct (classify_page_usable cosine str_float registry threshold
                fresh_env 0 page_emb Hreg Hemb Hdim)
      as (env' & j & best & cls & _ & _ & -> & Hb' & Ha').
    simpl. rewrite classify_loop_misfit; eauto.
    intros Hrest. apply Hfit. apply Forall_cons. split; [by right|done].
  - by rewrite classify_page_misfit.
Qed.

(** The records of a returning run are the outcomes of the iterations. *)
Lemma classify_pages_records (threshold : Q) (pages : list (list Q))
    (out : Classifications) (r : Classification) :
  classify_pages cosine str_float registry threshold pages = OK out ->
  r ∈ classifications out ->
  exists i page_emb env env',
    pages !! i = Some page_emb /\ classifications out !! i = Some r /\
    classify_page cosine str_float registry threshold env i page_emb
      = OK (env', r).
Proof.
  intros Hrun Hr. apply classify_pages_inv in Hrun as [Hlen Hrecs].
  apply list_elem_of_lookup in Hr as [i Hi].
  assert (i < length pages) as Hlt
    by (rewrite <- Hlen; by apply lookup_lt_Some in Hi).
  apply lookup_lt_is_Some_2 in Hlt as [page_emb Hpage].
  destruct (Hrecs i page_emb Hpage) as (env & env' & r' & Hr' & Hstep).
  rewrite Hi in Hr'. injection Hr' as <-.
  exists i, page_emb, env, env'. done.
Qed.

End SimilarityRunFacts.

(** X1.  The outcome of cell 20 from a fresh kernel.  When the category
    embeddings are not all of one length the run raises [ValueError]
    before the loop.  Otherwise: no page, an empty set; a first page
    without embedding, [NameError]; a usable first page, [ValueError] when
    no category is registered or some page with an embedding has another
    length than the category embeddings, and a set with one record per
    page otherwise. *)
Theorem classify_pages_outcome
    (cosine : list Q -> list Q -> Q) (str_float : Q -> string)
    (registry : list Category) (threshold : Q)
    (page_embeddings : list (list Q)) :
  let run :=
    classify_pages cosine str_float registry threshold page_embeddings in
  (rectangular (classification_embeddings registry) = false ->
   run = Raise ValueError) /\
  (rectangular (classification_embeddings registry) = true ->
   match page_embeddings with
   | [] => run = OK {| classifications := [] |}
   | [] :: _ => run = Raise (NameError "best_similarity")
   | (_ :: _) :: _ =>
       (registry = [] \/ ~ pages_fit registry page_embeddings ->
        run = Raise ValueError) /\
       (registry <> [] -> pages_fit registry page_embeddings ->
        exists out,
          run = OK out /\
          length (classifications out) = length page_embeddings)
   end).
Proof.
  intros run. subst run. split.
  - intros Hrect. unfold classify_pages, np_array. by rewrite Hrect.
  - intros Hrect.
    destruct page_embeddings as [|[|x xs] rest].
    + unfold classify_pages, np_array. by rewrite Hrect.
    + unfold classify_pages, np_array. by rewrite Hrect.
    + split.
      * intros [->|Hfit]; [reflexivity|].
        by apply classify_pages_misfit.
      * intros Hreg Hfit.
        destruct (classify_pages_returns cosine str_float registry
                    threshold (x :: xs) rest) as [out Hout]; [done..|].
        exists out. split; [done|].
        by apply classify_pages_inv in Hout as [Hlen _].
Qed.

(** Two categories of dimension 2: pages of dimension 2 give one record
    per page, and a page of dimension 1 makes the run raise. *)
Lemma classify_pages_outcome_witness :
  (exists out,
     classify_pages dot sample_str sample_registry similarity_threshold
       sample_page_embeddings = OK out /\
     length (classifications out) = 3) /\
  classify_pages dot sample_str sample_registry similarity_threshold
    [[9 # 10; 1 # 10]; [1]]%Q = Raise ValueError.
Proof.
  split.
  - apply (proj2 (proj2 (classify_pages_outcome dot sample_str
                           sample_registry similarity_threshold
                           sample_page_embeddings) eq_refl)).
    + discriminate.
    + apply Forall_cons. split; [right; repeat constructor|].
      apply Forall_cons. split; [right; repeat constructor|].
      apply Forall_cons. split; [by left|]. constructor.
  - apply (proj1 (proj2 (classify_pages_outcome dot sample_str
                           sample_registry similarity_threshold
                           [[9 # 10; 1 # 10]; [1]]%Q) eq_refl)).
    right. intros Hfit.
    apply Forall_cons in Hfit as [_ Hfit].
    apply Forall_cons in Hfit as [[Hnil|Hdim] _]; [discriminate Hnil|].
    apply Forall_cons in Hdim as [Hlen _]. discriminate Hlen.
Defined.

(** X2.  In a set that the similarity strategy returns every label is
    ["Unclassified"] or the name of a registered category. *)
Theorem labels_are_registered_or_unclassified
    (cosine : list Q -> list Q -> Q) (str_float : Q -> string)
    (registry : list Category) (threshold : Q)
    (page_embeddings : list (list Q)) (out : Classifications)
    (r : Classification) :
  classify_pages cosine str_float registry threshold page_embeddings
    = OK out ->
  r ∈ classifications out ->
  classification r = Unclassified \/
  exists cls, cls ∈ registry /\ classification r = cat_classification cls.
Proof.
  intros Hrun Hr.
  destruct (classify_pages_records _ _ _ _ _ _ _ Hrun Hr)
    as (i & page_emb & env & env' & _ & _ & Hstep).
  destruct (classify_page_cases _ _ _ _ _ _ _ _ _ Hstep)
    as [(_ & Hlab & _)|(_ & _ & j & best & cls & _ & Hcls & -> & _)].
  - by left.
  - simpl. destruct (Qle_bool threshold best); [|by left].
    right. exists cls. split; [|done].
    apply list_elem_of_lookup. eauto.
Qed.

Lemma labels_are_registered_or_unclassified_witness :
  exists out,
    classify_pages dot sample_str sample_registry similarity_threshold
      sample_page_embeddings = OK out /\
    forall r, r ∈ classifications out ->
      classification r = Unclassified \/
      exists cls, cls ∈ sample_registry /\
                  classification r = cat_classification cls.
Proof.
  eexists. split; [vm_compute; reflexivity|].
  intros r Hr.
  eapply (labels_are_registered_or_unclassified dot sample_str
            sample_registry similarity_threshold sample_page_embeddings);
    [|exact Hr].
  vm_compute. reflexivity.
Defined.

(** X3.  In a set that the similarity strategy returns, a page without
    embedding keeps its index as page number and is labelled
    ["Unclassified"]. *)
Theorem page_without_embedding_is_unclassified
    (cosine : list Q -> list Q -> Q) (str_float : Q -> string)
    (registry : list Category) (threshold : Q)
    (page_embeddings : list (list Q)) (out : Classifications) (i : nat) :
  classify_pages cosine str_float registry threshold page_embeddings
    = OK out ->
  page_embeddings !! i = Some [] ->
  exists r,
    classifications out !! i = Some r /\
    page_number r = Z.of_nat i /\ classification r = Unclassified.
Proof.
  intros Hrun Hpage.
  apply classify_pages_inv in Hrun as [_ Hrecs].
  destruct (Hrecs i [] Hpage) as (env & env' & r & Hr & Hstep).
  exists r. split; [done|].
  pose proof (classify_page_inv _ _ _ _ _ _ _ _ _ Hstep) as [Hnum _].
  split; [done|].
  destruct (classify_page_cases _ _ _ _ _ _ _ _ _ Hstep)
    as [(_ & Hlab & _)|(Hne & _)]; done.
Qed.

Lemma page_without_embedding_is_unclassified_witness :
  exists out r,
    classify_pages dot sample_str sample_registry similarity_threshold
      sample_page_embeddings = OK out /\
    classifications out !! 2 = Some r /\
    page_number r = 2%Z /\ classification r = Unclassified.
Proof.
  destruct (classify_pages dot sample_str sample_registry
              similarity_threshold sample_page_embeddings)
    as [out|e] eqn:Hrun; [|vm_compute in Hrun; discriminate Hrun].
  destruct (page_without_embedding_is_unclassified dot sample_str
              sample_registry similarity_threshold sample_page_embeddings
              out 2 Hrun) as (r & Hr & Hnum & Hlab); [reflexivity|].
  exists out, r. split; [reflexivity|]. split; [exact Hr|].
  split; [exact Hnum | exact Hlab].
Defined.

(** X4.  In a set that the similarity strategy returns, a record that
    carries a category label has a score that reaches the threshold. *)
Theorem category_label_implies_score_reaches_threshold
    (cosine : list Q -> list Q -> Q) (str_float : Q -> string)
    (registry : list Category) (threshold : Q)
    (page_embeddings : list (list Q)) (out : Classifications)
    (r : Classification) :
  classify_pages cosine str_float registry threshold page_embeddings
    = OK out ->
  r ∈ classifications out ->
  classification r <> Unclassified ->
  (threshold <= similarity r)%Q.
Proof.
  intros Hrun Hr Hlab.
  destruct (classify_pages_records _ _ _ _ _ _ _ Hrun Hr)
    as (i & page_emb & env & env' & _ & _ & Hstep).
  destruct (classify_page_cases _ _ _ _ _ _ _ _ _ Hstep)
    as [(_ & Hun & _)|(_ & _ & j & best & cls & _ & _ & -> & _)];
    [done|].
  simpl in Hlab |- *.
  destruct (Qle_bool threshold best) eqn:Hth; [|done].
  by apply Qle_bool_iff.
Qed.

Lemma category_label_implies_score_reaches_threshold_witness :
  exists out r,
    classify_pages dot sample_str sample_registry similarity_threshold
      sample_page_embeddings = OK out /\
    classifications out !! 0 = Some r /\
    (similarity_threshold <= similarity r)%Q.
Proof.
  eexists. eexists. split; [vm_compute; reflexivity|].
  split; [reflexivity|].
  eapply (category_label_implies_score_reaches_threshold dot sample_str
            sample_registry similarity_threshold sample_page_embeddings).
  - vm_compute. reflexivity.
  - simpl. left.
  - discriminate.
Defined.

(** X5.  Raising the threshold never changes a score and never moves a
    page to another category: when a run with threshold [t1] returns, the
    run with a threshold [t2 >= t1] returns as well, and record by record
    it keeps the page number, the score and the similarity list, and keeps
    the label or turns it into ["Unclassified"]. *)
Theorem raising_threshold_only_unclassifies
    (cosine : list Q -> list Q -> Q) (str_float : Q -> string)
    (registry : list Category) (t1 t2 : Q)
    (page_embeddings : list (list Q)) (out1 : Classifications) :
  (t1 <= t2)%Q ->
  classify_pages cosine str_float registry t1 page_embeddings = OK out1 ->
  exists out2,
    classify_pages cosine str_float registry t2 page_embeddings = OK out2 /\
    Forall2 label_kept_or_dropped
      (classifications out1) (classifications out2).
Proof.
  intros Hle Hrun. unfold classify_pages in Hrun |- *.
  apply bind_OK in Hrun as (matrix & -> & Hrun). simpl.
  apply bind_OK in Hrun as (cs1 & Hloop & Hout). injection Hout as <-.
  destruct (classify_loop_raise_threshold cosine str_float registry t1 t2
              page_embeddings Hle fresh_env fresh_env 0 [] [] cs1)
    as (cs2 & -> & Hrel); [done | constructor | done |].
  simpl. eauto.
Qed.

(** The threshold-miss example: at 0.95 both usable sample pages become
    ["Unclassified"] and keep their score. *)
Lemma raising_threshold_only_unclassifies_witness :
  exists out1 out2,
    classify_pages dot sample_str sample_registry similarity_threshold
      sample_page_embeddings = OK out1 /\
    classify_pages dot sample_str sample_registry (95 # 100)
      sample_page_embeddings = OK out2 /\
    Forall2 label_kept_or_dropped
      (classifications out1) (classifications out2).
Proof.
  destruct (classify_pages dot sample_str sample_registry
              similarity_threshold sample_page_embeddings)
    as [out1|e] eqn:Hrun; [|vm_compute in Hrun; discriminate Hrun].
  destruct (raising_threshold_only_unclassifies dot sample_str
              sample_registry similarity_threshold (95 # 100)
              sample_page_embeddings out1)
    as (out2 & Hrun2 & Hrel);
    [vm_compute; discriminate | exact Hrun |].
  exists out1, out2. split; [reflexivity|].
  split; [exact Hrun2 | exact Hrel].
Defined.

(** ** Further facts on the evaluation engine *)

Lemma accuracy_loop_foldl (expected : Classifications)
    (actual : list Classification) :
  forall accuracy out,
    accuracy_loop expected actual accuracy = OK out ->
    out = foldl (accuracy_entry expected) accuracy actual /\
    forall c, c ∈ actual ->
      exists e, get_classification expected (page_number c) = OK e.
Proof.
  induction actual as [|c actual IH]; intros accuracy out Hrun;
    simpl in Hrun.
  - injection Hrun as <-. split; [done|].
    intros c Hc. by apply elem_of_nil in Hc.
  - apply bind_OK in Hrun as (e & Hget & Hrun).
    apply IH in Hrun as [-> Hall]. split.
    + simpl. unfold accuracy_entry at 3, is_correct, indicator.
      by rewrite Hget.
    + intros c' Hc'. apply elem_of_cons in Hc' as [->|Hc']; eauto.
Qed.

Lemma accuracy_loop_found (expected : Classifications)
    (actual : list Classification) (accuracy : gmap DictKey Q) :
  (forall c, c ∈ actual ->
     exists e, get_classification expected (page_number c) = OK e) ->
  accuracy_loop expected actual accuracy
    = OK (foldl (accuracy_entry expected) accuracy actual).
Proof.
  intros Hall.
  destruct (accuracy_loop_returns expected actual accuracy Hall)
    as [out Hrun].
  by destruct (accuracy_loop_foldl _ _ _ _ Hrun) as [<- _].
Qed.

Lemma calculate_accuracy_OK (expected actual : Classifications)
    (report : gmap DictKey Q) :
  calculate_accuracy expected actual = OK report ->
  let accuracy :=
    foldl (accuracy_entry expected) ∅ (classifications actual) in
  size accuracy <> 0 /\
  accuracy !! overall_key = None /\
  (forall k v, accuracy !! k = Some v -> v = 0%Q \/ v = 1%Q) /\
  report
    = <[overall_key :=
          (Qsum (dict_values accuracy)
           / inject_Z (Z.of_nat (size accuracy)))%Q]> accuracy.
Proof.
  unfold calculate_accuracy. intros Hrun.
  apply bind_OK in Hrun as (accuracy & Hloop & Hrun).
  apply bind_OK in Hrun as (overall & Hdiv & Hrun). injection Hrun as <-.
  pose proof (accuracy_loop_indicators expected (classifications actual)
                [] ∅ accuracy Hloop (indicators_of_empty expected)) as Hinv.
  simpl in Hinv.
  destruct (accuracy_loop_foldl _ _ _ _ Hloop) as [Heq _].
  simpl. rewrite <- Heq.
  assert (size accuracy <> 0) as Hsize.
  { intros H0. rewrite H0 in Hdiv. discriminate. }
  split; [done|].
  split; [by apply (indicators_of_no_string_key _ _ _ _ Hinv)|].
  split.
  - intros k v Hk. destruct Hinv as [Hent _].
    destruct (Hent k v Hk) as (c & e & _ & _ & _ & ->).
    apply indicator_values.
  - rewrite (py_truediv_OK _ _ Hsize) in Hdiv. by injection Hdiv as <-.
Qed.

Lemma Qsum_div_unit_interval (l : list Q) :
  Forall unit_interval l -> l <> [] ->
  unit_interval (Qsum l / inject_Z (Z.of_nat (length l))).
Proof.
  intros Hall Hne.
  destruct (Qsum_unit_interval _ Hall) as [H0 H1].
  assert (0 < inject_Z (Z.of_nat (length l)))%Q as Hpos.
  { destruct l; [done|]. unfold Qlt, inject_Z. simpl. lia. }
  split.
  - apply Qle_shift_div_l; [done|]. by rewrite Qmult_0_l.
  - apply Qle_shift_div_r; [done|]. by rewrite Qmult_1_l.
Qed.

(** X6.  Every value of a report that the accuracy cell returns, the
    [overall] entry included, lies between 0 and 1. *)
Theorem accuracy_report_within_unit_interval
    (expected actual : Classifications) (report : gmap DictKey Q)
    (k : DictKey) (v : Q) :
  calculate_accuracy expected actual = OK report ->
  report !! k = Some v ->
  unit_interval v.
Proof.
  intros Hrun Hk.
  destruct (calculate_accuracy_OK _ _ _ Hrun) as (Hsize & _ & Hval & ->).
  set (accuracy := foldl (accuracy_entry expected) ∅
                     (classifications actual)) in *.
  assert (forall k v, accuracy !! k = Some v -> unit_interval v) as Hunit.
  { intros k' v' Hk'. destruct (Hval _ _ Hk') as [->| ->];
      split; discriminate. }
  apply lookup_insert_Some in Hk as [[_ <-]|[_ Hk]]; [|by eapply Hunit].
  rewrite <- dict_values_length.
  apply Qsum_div_unit_interval.
  - by apply dict_values_Forall.
  - intros Hnil. apply Hsize. by rewrite <- dict_values_length, Hnil.
Qed.

Lemma accuracy_report_within_unit_interval_witness :
  exists report overall,
    calculate_accuracy expected_embeddings
      {| classifications :=
           [ expected_page 0 "Insurance Policy";
             expected_page 5 "Terms and Conditions" ] |} = OK report /\
    report !! overall_key = Some overall /\ unit_interval overall.
Proof.
  eexists. eexists. split; [reflexivity|].
  split; [vm_compute; reflexivity|].
  eapply (accuracy_report_within_unit_interval expected_embeddings
            {| classifications :=
                 [ expected_page 0 "Insurance Policy";
                   expected_page 5 "Terms and Conditions" ] |}
            _ overall_key);
    [reflexivity | vm_compute; reflexivity].
Defined.

Lemma accuracy_entry_commute (expected : Classifications)
    (d : gmap DictKey Q) (c1 c2 : Classification) :
  page_number c1 <> page_number c2 ->
  accuracy_entry expected (accuracy_entry expected d c1) c2
  = accuracy_entry expected (accuracy_entry expected d c2) c1.
Proof.
  intros Hne. unfold accuracy_entry. apply insert_insert_ne. congruence.
Qed.

Lemma foldl_accuracy_entry_other (expected : Classifications)
    (l : list Classification) (k : DictKey) :
  (forall c, c ∈ l -> KInt (page_number c) <> k) ->
  forall d, foldl (accuracy_entry expected) d l !! k = d !! k.
Proof.
  induction l as [|c l IH]; intros Hfresh d; simpl; [done|].
  rewrite IH.
  - unfold accuracy_entry. apply lookup_insert_ne. apply Hfresh. by left.
  - intros c' Hc'. apply Hfresh. by right.
Qed.

(** With distinct page numbers the dict holds one entry per record. *)
Lemma foldl_accuracy_entry_to_list (expected : Classifications)
    (l : list Classification) :
  NoDup (map page_number l) ->
  forall d,
    (forall c, c ∈ l -> d !! KInt (page_number c) = None) ->
    map_to_list (foldl (accuracy_entry expected) d l)
    ≡ₚ map (fun c => (KInt (page_number c),
                      if is_correct expected c then 1%Q else 0%Q)) l
       ++ map_to_list d.
Proof.
  induction l as [|c l IH]; intros Hnd d Hfresh; simpl; [done|].
  apply NoDup_cons in Hnd as [Hc Hnd].
  rewrite IH; [|done|].
  - unfold accuracy_entry at 1.
    rewrite map_to_list_insert by (apply Hfresh; by left).
    by rewrite Permutation_middle.
  - intros c' Hc'. unfold accuracy_entry. rewrite lookup_insert_ne.
    + apply Hfresh. by right.
    + intros [= Heq]. apply Hc. rewrite Heq.
      apply list_elem_of_fmap. eauto.
Qed.

Lemma foldl_accuracy_entry_Permutation (expected : Classifications)
    (l1 l2 : list Classification) :
  l1 ≡ₚ l2 -> NoDup (map page_number l1) ->
  forall d,
    foldl (accuracy_entry expected) d l1
    = foldl (accuracy_entry expected) d l2.
Proof.
  induction 1 as [|x l l' Hp IH|x y l|l l' l'' Hp1 IH1 Hp2 IH2];
    intros Hnd d; simpl.
  - done.
  - apply NoDup_cons in Hnd as [_ Hnd]. by apply IH.
  - f_equal. apply accuracy_entry_commute.
    apply NoDup_cons in Hnd as [Hy _]. intros Heq. apply Hy.
    rewrite Heq. simpl. by left.
  - rewrite IH1 by done. apply IH2.
    by rewrite <- (Permutation_map page_number Hp1).
Qed.

Lemma Qsum_correct_entries (expected : Classifications)
    (l : list Classification) :
  (Qsum (map (fun c => if is_correct expected c then 1 else 0) l)
   == inject_Z (Z.of_nat (length (filter (fun c => is_correct expected c
                                                   = true) l))))%Q.
Proof.
  induction l as [|c l IH]; simpl; [reflexivity|].
  fold (Qsum (map (fun c => if is_correct expected c then 1 else 0) l))%Q.
  rewrite IH, filter_cons.
  destruct (is_correct expected c) eqn:Hc.
  - rewrite decide_True by done. simpl length.
    rewrite Nat2Z.inj_succ. unfold Z.succ. rewrite inject_Z_plus. ring.
  - rewrite decide_False by done. ring.
Qed.

(** X7.  When the page numbers of the actual set are distinct, [overall]
    is the number of records whose label equals the expected one divided
    by the number of records. *)
Theorem accuracy_overall_counts_correct_records
    (expected actual : Classifications) (report : gmap DictKey Q) :
  NoDup (map page_number (classifications actual)) ->
  calculate_accuracy expected actual = OK report ->
  exists overall,
    report !! overall_key = Some overall /\
    (overall ==
       inject_Z (Z.of_nat (length (filter
                                     (fun c => is_correct expected c = true)
                                     (classifications actual))))
       / inject_Z (Z.of_nat (length (classifications actual))))%Q.
Proof.
  intros Hnd Hrun.
  destruct (calculate_accuracy_OK _ _ _ Hrun) as (Hsize & _ & _ & ->).
  eexists. split; [apply lookup_insert_eq|].
  pose proof (foldl_accuracy_entry_to_list expected (classifications actual)
                Hnd ∅ ltac:(intros; apply lookup_empty)) as Hperm.
  rewrite map_to_list_empty, app_nil_r in Hperm.
  assert (size (foldl (accuracy_entry expected) ∅ (classifications actual))
          = length (classifications actual)) as ->.
  { rewrite <- length_map_to_list, Hperm. by rewrite length_map. }
  unfold dict_values.
  rewrite (Qsum_Permutation _ _ (fmap_Permutation snd _ _ Hperm)).
  rewrite <- list_fmap_compose.
  by rewrite <- (Qsum_correct_entries expected (classifications actual)).
Qed.

Lemma accuracy_overall_counts_correct_records_witness :
  exists report overall,
    calculate_accuracy expected_embeddings
      {| classifications :=
           [ expected_page 0 "Insurance Policy";
             expected_page 5 "Terms and Conditions" ] |} = OK report /\
    report !! overall_key = Some overall /\
    (overall == 1 # 2)%Q.
Proof.
  destruct (calculate_accuracy expected_embeddings
              {| classifications :=
                   [ expected_page 0 "Insurance Policy";
                     expected_page 5 "Terms and Conditions" ] |})
    as [report|e] eqn:Hrun; [|vm_compute in Hrun; discriminate Hrun].
  destruct (accuracy_overall_counts_correct_records expected_embeddings
              {| classifications :=
                   [ expected_page 0 "Insurance Policy";
                     expected_page 5 "Terms and Conditions" ] |} report)
    as (overall & Hov & Heq).
  - simpl. apply NoDup_cons. split; [|apply NoDup_singleton].
    intros H. apply list_elem_of_singleton in H. discriminate H.
  - exact Hrun.
  - exists report, overall. split; [reflexivity|]. split; [exact Hov|].
    rewrite Heq. reflexivity.
Defined.

(** X8.  When several records of the actual set carry the same page
    number, the report keeps for that page the outcome of the last of
    them. *)
Theorem accuracy_keeps_last_record_of_page
    (expected : Classifications) (before after : list Classification)
    (c : Classification) (report : gmap DictKey Q) :
  calculate_accuracy expected
    {| classifications := before ++ c :: after |} = OK report ->
  (forall c', c' ∈ after -> page_number c' <> page_number c) ->
  report !! KInt (page_number c)
    = Some (if is_correct expected c then 1%Q else 0%Q).
Proof.
  intros Hrun Hlast.
  destruct (calculate_accuracy_OK _ _ _ Hrun) as (_ & _ & _ & ->).
  simpl. rewrite lookup_insert_ne by done.
  rewrite foldl_app. simpl.
  rewrite foldl_accuracy_entry_other.
  - unfold accuracy_entry. apply lookup_insert_eq.
  - intros c' Hc' [= Heq]. by apply (Hlast c').
Qed.

Lemma accuracy_keeps_last_record_of_page_witness :
  exists report,
    calculate_accuracy expected_embeddings
      {| classifications :=
           [ expected_page 0 "Insurance Policy" ]
           ++ expected_page 0 "Terms and Conditions" :: [] |} = OK report /\
    report !! KInt 0 = Some 0%Q.
Proof.
  eexists. split; [reflexivity|].
  apply (accuracy_keeps_last_record_of_page expected_embeddings
           [ expected_page 0 "Insurance Policy" ] []
           (expected_page 0 "Terms and Conditions")).
  - reflexivity.
  - intros c' Hc'. by apply elem_of_nil in Hc'.
Defined.

Lemma get_classification_page_label (e1 e2 : Classifications) (page : Z) :
  map page_label (classifications e1) = map page_label (classifications e2) ->
  match get_classification e1 page, get_classification e2 page with
  | OK c1, OK c2 => classification c1 = classification c2
  | Raise err1, Raise err2 => err1 = err2
  | _, _ => False
  end.
Proof.
  unfold get_classification.
  destruct e1 as [l1], e2 as [l2]. simpl. revert l2.
  induction l1 as [|c1 l1 IH]; intros [|c2 l2] Heq; simpl in Heq |- *;
    try discriminate; [done|].
  injection Heq as Hpage Hlabel Htail. rewrite Hpage.
  destruct (page_number c2 =? page)%Z; [done|]. by apply IH.
Qed.

Lemma accuracy_loop_page_label (e1 e2 : Classifications)
    (a1 : list Classification) :
  map page_label (classifications e1) = map page_label (classifications e2) ->
  forall a2 accuracy,
    map page_label a1 = map page_label a2 ->
    accuracy_loop e1 a1 accuracy = accuracy_loop e2 a2 accuracy.
Proof.
  intros Hexp. induction a1 as [|c1 a1 IH]; intros [|c2 a2] accuracy Heq;
    simpl in Heq |- *; try discriminate; [done|].
  injection Heq as Hpage Hlabel Htail. rewrite Hpage.
  pose proof (get_classification_page_label e1 e2 (page_number c2) Hexp)
    as Hget.
  destruct (get_classification e1 (page_number c2)) as [x1|err1],
    (get_classification e2 (page_number c2)) as [x2|err2];
    simpl; try done; [|by subst].
  rewrite Hget, Hlabel. by apply IH.
Qed.

(** X9.  The accuracy cell reads nothing but page numbers and labels: two
    expected sets and two actual sets that agree on them, record by
    record, get the same outcome, whatever their scores and similarity
    lists. *)
Theorem accuracy_reads_only_page_numbers_and_labels
    (expected1 expected2 actual1 actual2 : Classifications) :
  map page_label (classifications expected1)
    = map page_label (classifications expected2) ->
  map page_label (classifications actual1)
    = map page_label (classifications actual2) ->
  calculate_accuracy expected1 actual1 = calculate_accuracy expected2 actual2.
Proof.
  intros Hexp Hact. unfold calculate_accuracy.
  by rewrite (accuracy_loop_page_label expected1 expected2 _ Hexp
                (classifications actual2) ∅ Hact).
Qed.

(** The first two records of the sample run, with their scores of 9/10
    and their similarity lists, are evaluated like the bare records of
    pages 0 and 1. *)
Lemma accuracy_reads_only_page_numbers_and_labels_witness :
  calculate_accuracy expected_embeddings
    {| classifications :=
         [ {| page_number := 0; classification := "Insurance Policy";
              similarity := 9 # 10;
              all_similarities :=
                [ {| se_classification := "Insurance Policy";
                     se_similarity := "0.9" |} ] |} ] |}
  = calculate_accuracy expected_embeddings
      {| classifications := [ expected_page 0 "Insurance Policy" ] |}.
Proof.
  apply accuracy_reads_only_page_numbers_and_labels; reflexivity.
Defined.

(** X10.  The accuracy cell stops at the first record, in document order,
    whose page number the expected set lacks, and raises for that page
    number; later records are not looked at. *)
Theorem accuracy_raises_for_first_missing_page
    (expected : Classifications) (before after : list Classification)
    (c : Classification) :
  (forall c', c' ∈ before ->
     exists e, get_classification expected (page_number c') = OK e) ->
  (forall e, e ∈ classifications expected ->
             page_number e <> page_number c) ->
  calculate_accuracy expected {| classifications := before ++ c :: after |}
    = Raise (NotFoundError (page_number c)).
Proof.
  intros Hfound Habs. unfold calculate_accuracy. simpl.
  generalize (∅ : gmap DictKey Q).
  induction before as [|c0 before IH]; intros accuracy; simpl.
  - by rewrite (get_classification_absent _ _ Habs).
  - destruct (Hfound c0) as [e ->]; [by left|]. simpl.
    apply IH. intros c' Hc'. apply Hfound. by right.
Qed.

Lemma accuracy_raises_for_first_missing_page_witness :
  calculate_accuracy expected_embeddings
    {| classifications :=
         [ expected_page 0 "Insurance Policy" ]
         ++ expected_page 13 "Terms and Conditions"
         :: [ expected_page 14 "Terms and Conditions" ] |}
  = Raise (NotFoundError 13).
Proof.
  apply (accuracy_raises_for_first_missing_page expected_embeddings
           [ expected_page 0 "Insurance Policy" ]
           [ expected_page 14 "Terms and Conditions" ]
           (expected_page 13 "Terms and Conditions")).
  - intros c' Hc'. apply list_elem_of_singleton in Hc' as ->.
    eexists. vm_compute. reflexivity.
  - intros e He. simpl in He.
    repeat (apply elem_of_cons in He as [->|He]; [discriminate|]).
    by apply elem_of_nil in He.
Defined.

(** X11.  With distinct page numbers the order of the actual set does not
    matter: a reordered set gets the same report. *)
Theorem accuracy_ignores_order_of_distinct_pages
    (expected actual1 actual2 : Classifications)
    (report : gmap DictKey Q) :
  classifications actual1 ≡ₚ classifications actual2 ->
  NoDup (map page_number (classifications actual1)) ->
  calculate_accuracy expected actual1 = OK report ->
  calculate_accuracy expected actual2 = OK report.
Proof.
  intros Hperm Hnd Hrun. unfold calculate_accuracy in Hrun |- *.
  apply bind_OK in Hrun as (accuracy & Hloop & Hrun).
  destruct (accuracy_loop_foldl _ _ _ _ Hloop) as [-> Hall].
  rewrite accuracy_loop_found.
  - simpl.
    by rewrite <- (foldl_accuracy_entry_Permutation expected _ _ Hperm Hnd).
  - intros c Hc. apply Hall. by rewrite Hperm.
Qed.

Lemma accuracy_ignores_order_of_distinct_pages_witness :
  exists report,
    calculate_accuracy expected_embeddings
      {| classifications :=
           [ expected_page 0 "Insurance Policy";
             expected_page 5 "Terms and Conditions" ] |} = OK report /\
    calculate_accuracy expected_embeddings
      {| classifications :=
           [ expected_page 5 "Terms and Conditions";
             expected_page 0 "Insurance Policy" ] |} = OK report.
Proof.
  eexists. split; [reflexivity|].
  apply (accuracy_ignores_order_of_distinct_pages expected_embeddings
           {| classifications :=
                [ expected_page 0 "Insurance Policy";
                  expected_page 5 "Terms and Conditions" ] |}).
  - simpl. apply perm_swap.
  - simpl. apply NoDup_cons. split; [|apply NoDup_singleton].
    intros H. apply list_elem_of_singleton in H. discriminate H.
  - reflexivity.
Defined.

(** ** Page contents from the layout analysis *)

Lemma substring_split (s : string) :
  forall a n m,
    (String.substring a n s ++ String.substring (a + n) m s)%string
    = String.substring a (n + m) s.
Proof.
  induction s as [|ch s IH]; intros a n m.
  - destruct a, n, m; reflexivity.
  - destruct a as [|a].
    + destruct n as [|n]; simpl.
      * reflexivity.
      * rewrite <- (IH 0 n m). reflexivity.
    + simpl. apply IH.
Qed.

Lemma substring_all (s : string) : String.substring 0 (String.length s) s = s.
Proof. induction s as [|ch s IH]; simpl; [done | by rewrite IH]. Qed.

Lemma substring_nothing (s : string) (a : nat) : String.substring a 0 s = "".
Proof.
  revert a. induction s as [|ch s IH]; intros [|a]; simpl; auto.
Qed.

Lemma substring_length_le (s : string) :
  forall a n, String.length (String.substring a n s) <= n.
Proof.
  induction s as [|ch s IH]; intros a n.
  - destruct a, n; simpl; lia.
  - destruct a as [|a].
    + destruct n as [|n]; simpl; [lia|]. specialize (IH 0 n). lia.
    + simpl. apply IH.
Qed.

Lemma substring_length_le_string (s : string) :
  forall a n, String.length (String.substring a n s) <= String.length s.
Proof.
  induction s as [|ch s IH]; intros a n.
  - destruct a, n; simpl; lia.
  - destruct a as [|a].
    + destruct n as [|n]; simpl; [lia|]. specialize (IH 0 n). lia.
    + simpl. specialize (IH a n). lia.
Qed.

Lemma py_slice_length (s : string) (start stop : Z) :
  String.length (py_slice s start stop) <= String.length s /\
  ((0 <= start)%Z -> (0 <= stop)%Z ->
   (Z.of_nat (String.length (py_slice s start stop))
    <= Z.max 0 (stop - start))%Z).
Proof.
  unfold py_slice. cbv zeta. split.
  - apply substring_length_le_string.
  - intros Hstart Hstop.
    set (n := Z.of_nat (String.length s)).
    pose proof (substring_length_le s (Z.to_nat (slice_bound n start))
                  (Z.to_nat (slice_bound n stop - slice_bound n start)))
      as Hle.
    assert (slice_bound n start = Z.min start n) as H1
      by (unfold slice_bound; destruct (start <? 0)%Z eqn:H; lia).
    assert (slice_bound n stop = Z.min stop n) as H2
      by (unfold slice_bound; destruct (stop <? 0)%Z eqn:H; lia).
    rewrite H1, H2 in Hle |- *. lia.
Qed.

Lemma append_empty_r (x : string) : (x ++ "")%string = x.
Proof.
  induction x as [|ch x IH]; [done|]. rewrite <- IH at 2. reflexivity.
Qed.

Lemma concat_empty_cons (x : string) (xs : list string) :
  String.concat "" (x :: xs) = (x ++ String.concat "" xs)%string.
Proof.
  destruct xs as [|y ys]; simpl; [|done]. by rewrite append_empty_r.
Qed.

Lemma py_slice_inside (s : string) (a l : Z) :
  (0 <= a)%Z -> (0 <= l)%Z -> (a + l <= Z.of_nat (String.length s))%Z ->
  py_slice s a (a + l) = String.substring (Z.to_nat a) (Z.to_nat l) s.
Proof.
  intros Ha Hl Hend. unfold py_slice, slice_bound.
  destruct (a <? 0)%Z eqn:H1; [lia|].
  destruct (a + l <? 0)%Z eqn:H2; [lia|].
  f_equal; lia.
Qed.

Lemma pages_content_loop_app (analysis : AnalyzeResult)
    (pages : list DocumentPage) :
  forall acc out,
    pages_content_loop analysis pages acc = OK out ->
    exists contents,
      out = acc ++ contents /\
      length contents = length pages /\
      forall i page, pages !! i = Some page ->
        exists span,
          page_spans page !! 0 = Some span /\
          contents !! i
            = Some (py_slice (ar_content analysis) (span_offset span)
                      (span_offset span + span_length span)).
Proof.
  induction pages as [|page pages IH]; intros acc out Hrun; simpl in Hrun.
  - injection Hrun as <-. exists []. rewrite app_nil_r.
    split; [done|]. split; [done|].
    intros i p Hi. by rewrite lookup_nil in Hi.
  - apply bind_OK in Hrun as (content & Hpage & Hrun).
    apply IH in Hrun as (contents & -> & Hlen & Hat).
    exists (content :: contents). rewrite <- app_assoc.
    split; [done|]. split; [simpl; by rewrite Hlen|].
    intros [|i] p Hi; simpl in Hi.
    + injection Hi as <-. unfold page_content in Hpage.
      apply bind_OK in Hpage as (span & Hspan & Hc).
      unfold index in Hspan.
      destruct (page_spans page !! 0) as [sp|] eqn:Hsp; [|discriminate].
      injection Hspan as ->. injection Hc as <-. eauto.
    + by apply Hat.
Qed.

Lemma pages_content_loop_no_span (analysis : AnalyzeResult)
    (pages : list DocumentPage) :
  forall acc,
    (exists page, page ∈ pages /\ page_spans page = []) ->
    pages_content_loop analysis pages acc = Raise IndexError.
Proof.
  induction pages as [|p pages IH]; intros acc (page & Hin & Hno).
  - by apply elem_of_nil in Hin.
  - simpl. unfold page_content, index.
    destruct (page_spans p) as [|sp more] eqn:Hp; [done|]. simpl.
    apply IH. exists page. split; [|done].
    apply elem_of_cons in Hin as [->|Hin]; [congruence | done].
Qed.

Lemma pages_content_loop_spans (analysis : AnalyzeResult)
    (pages : list DocumentPage) :
  forall acc,
    (forall page, page ∈ pages -> page_spans page <> []) ->
    exists out, pages_content_loop analysis pages acc = OK out.
Proof.
  induction pages as [|p pages IH]; intros acc Hall; simpl; [eauto|].
  unfold page_content, index.
  destruct (page_spans p) as [|sp more] eqn:Hp.
  - destruct (Hall p); [by left | done].
  - simpl. apply IH. intros page Hin. apply Hall. by right.
Qed.

(** X12.  Cell 11 raises [IndexError] exactly when some page of the
    analysis result has no span; otherwise it returns one content per
    page, in page order, each the slice of the whole content that the
    page's first span delimits, no longer than the content and, for a
    span with non-negative bounds, no longer than the span. *)
Theorem pages_content_one_slice_per_page (analysis : AnalyzeResult) :
  (extract_pages_content analysis = Raise IndexError <->
   exists page, page ∈ ar_pages analysis /\ page_spans page = []) /\
  ((forall page, page ∈ ar_pages analysis -> page_spans page <> []) ->
   exists pages_content,
     extract_pages_content analysis = OK pages_content) /\
  forall pages_content,
    extract_pages_content analysis = OK pages_content ->
    length pages_content = length (ar_pages analysis) /\
    forall i page, ar_pages analysis !! i = Some page ->
      exists span content,
        page_spans page !! 0 = Some span /\
        pages_content !! i = Some content /\
        content = py_slice (ar_content analysis) (span_offset span)
                    (span_offset span + span_length span) /\
        String.length content <= String.length (ar_content analysis) /\
        ((0 <= span_offset span)%Z ->
         (0 <= span_offset span + span_length span)%Z ->
         (Z.of_nat (String.length content)
          <= Z.max 0 (span_length span))%Z).
Proof.
  unfold extract_pages_content. split; [|split].
  - split.
    + intros Hraise.
      destruct (decide (Forall (fun page => page_spans page <> [])
                          (ar_pages analysis))) as [Hall|Hno].
      * destruct (pages_content_loop_spans analysis (ar_pages analysis) [])
          as [out Hout]; [by apply Forall_forall|]. congruence.
      * apply not_Forall_Exists in Hno; [|apply _].
        apply Exists_exists in Hno as (page & Hin & Hp).
        exists page. split; [done|].
        destruct (page_spans page) as [|sp more] eqn:Hsp; [done|].
        exfalso. apply Hp. rewrite Hsp. discriminate.
    + apply pages_content_loop_no_span.
  - apply pages_content_loop_spans.
  - intros pages_content Hrun.
    apply pages_content_loop_app in Hrun as (contents & -> & Hlen & Hat).
    simpl. split; [done|]. intros i page Hi.
    destruct (Hat i page Hi) as (span & Hspan & Hc).
    eexists span, _. split; [done|]. split; [exact Hc|]. split; [done|].
    destruct (py_slice_length (ar_content analysis) (span_offset span)
                (span_offset span + span_length span)) as [H1 H2].
    split; [done|]. intros Ha Hb. specialize (H2 Ha Hb). lia.
Qed.

Lemma pages_content_one_slice_per_page_witness :
  exists pages_content,
    extract_pages_content sample_analysis = OK pages_content /\
    length pages_content = 2.
Proof.
  destruct (pages_content_one_slice_per_page sample_analysis)
    as (_ & Hret & Hshape).
  destruct Hret as [pages_content Hrun].
  - intros page Hin. simpl in Hin.
    repeat (apply elem_of_cons in Hin as [->|Hin]; [discriminate|]).
    by apply elem_of_nil in Hin.
  - exists pages_content. split; [exact Hrun|].
    apply (Hshape pages_content Hrun).
Defined.

Lemma spans_tile_le (pages : list DocumentPage) :
  forall start stop, spans_tile start pages stop -> (start <= stop)%Z.
Proof.
  induction pages as [|p pages IH]; intros start stop H; simpl in H.
  - lia.
  - destruct H as (span & more & _ & _ & Hlen & Hrest).
    apply IH in Hrest. lia.
Qed.

Lemma pages_content_loop_tile (analysis : AnalyzeResult)
    (pages : list DocumentPage) (stop : Z) :
  (stop <= Z.of_nat (String.length (ar_content analysis)))%Z ->
  forall start acc,
    (0 <= start)%Z -> spans_tile start pages stop ->
    exists contents,
      pages_content_loop analysis pages acc = OK (acc ++ contents) /\
      String.concat "" contents
      = String.substring (Z.to_nat start) (Z.to_nat (stop - start))
          (ar_content analysis).
Proof.
  intros Hstop.
  induction pages as [|p pages IH]; intros start acc Hstart Htile;
    simpl in Htile |- *.
  - subst stop. exists []. rewrite app_nil_r. split; [done|].
    rewrite Z.sub_diag. simpl. by rewrite substring_nothing.
  - destruct Htile as (span & more & Hp & Hoff & Hlen & Hrest).
    pose proof (spans_tile_le _ _ _ Hrest) as Hle.
    unfold page_content, index. rewrite Hp. simpl. rewrite Hoff.
    rewrite py_slice_inside by lia.
    destruct (IH (start + span_length span)%Z
                (acc ++ [String.substring (Z.to_nat start)
                           (Z.to_nat (span_length span))
                           (ar_content analysis)]))
      as (contents & -> & Hcat); [lia | done |].
    eexists (_ :: contents). rewrite <- app_assoc. split; [done|].
    rewrite concat_empty_cons, Hcat.
    rewrite Z2Nat.inj_add by lia.
    rewrite substring_split. f_equal. lia.
Qed.

(** X13.  When the first spans of the pages follow one another from the
    start of the content to its end, without gap or overlap, cell 11
    returns page contents that, put end to end, give back the whole
    content. *)
Theorem pages_content_of_tiling_spans_rebuild_content
    (analysis : AnalyzeResult) :
  spans_tile 0 (ar_pages analysis)
    (Z.of_nat (String.length (ar_content analysis))) ->
  exists pages_content,
    extract_pages_content analysis = OK pages_content /\
    String.concat "" pages_content = ar_content analysis.
Proof.
  intros Htile.
  destruct (pages_content_loop_tile analysis (ar_pages analysis)
              (Z.of_nat (String.length (ar_content analysis)))
              ltac:(lia) 0%Z [] ltac:(lia) Htile) as (contents & Hrun & Hcat).
  exists contents. split; [exact Hrun|].
  rewrite Hcat, Z.sub_0_r, Nat2Z.id. apply substring_all.
Qed.

Lemma pages_content_of_tiling_spans_rebuild_content_witness :
  exists pages_content,
    extract_pages_content sample_analysis = OK pages_content /\
    String.concat "" pages_content = ar_content sample_analysis.
Proof.
  destruct (pages_content_of_tiling_spans_rebuild_content sample_analysis)
    as (pages_content & Hrun & Hcat).
  - simpl. eexists _, _. split; [reflexivity|]. split; [reflexivity|].
    split; [simpl; lia|].
    eexists _, _. split; [reflexivity|]. split; [reflexivity|].
    split; [simpl; lia|]. reflexivity.
  - exists pages_content. split; [exact Hrun | exact Hcat].
Defined.

(** ** The embedding cells and the similarity notebook as a whole *)

Section EmbeddingCellFacts.

Variable get_embedding : string -> result (list Q).

Lemma embed_classifications_OK (defs : list CategoryDef)
    (registry : list Category) :
  embed_classifications get_embedding defs = OK registry ->
  map cat_def registry = defs /\
  forall cat, cat ∈ registry ->
    get_embedding (String.concat " " (def_keywords (cat_def cat)))
      = OK (cat_embedding cat).
Proof.
  revert registry. induction defs as [|d defs IH]; intros registry Hrun;
    simpl in Hrun.
  - injection Hrun as <-. split; [done|].
    intros cat Hin. by apply elem_of_nil in Hin.
  - apply bind_OK in Hrun as (embedding & Hemb & Hrun).
    apply bind_OK in Hrun as (rest & Hrest & Hrun). injection Hrun as <-.
    destruct (IH rest Hrest) as [Hdefs Hcalls]. split.
    + simpl. by rewrite Hdefs.
    + intros cat Hin. apply elem_of_cons in Hin as [->|Hin]; [done|].
      by apply Hcalls.
Qed.

Lemma embed_classifications_first_failure
    (before after : list CategoryDef) (d : CategoryDef) (e : PyError) :
  (forall d', d' ∈ before ->
     exists v, get_embedding (String.concat " " (def_keywords d')) = OK v) ->
  get_embedding (String.concat " " (def_keywords d)) = Raise e ->
  embed_classifications get_embedding (before ++ d :: after) = Raise e.
Proof.
  intros Hbefore Hd. induction before as [|d0 before IH]; simpl.
  - by rewrite Hd.
  - destruct (Hbefore d0) as [v ->]; [by left|]. simpl.
    rewrite IH; [done|]. intros d' Hin. apply Hbefore. by right.
Qed.

Lemma embed_pages_OK (pages_content : list string)
    (page_embeddings : list (list Q)) :
  embed_pages get_embedding pages_content = OK page_embeddings ->
  length page_embeddings = length pages_content /\
  forall i text, pages_content !! i = Some text ->
    exists embedding,
      page_embeddings !! i = Some embedding /\
      get_embedding text = OK embedding.
Proof.
  revert page_embeddings.
  induction pages_content as [|t pages_content IH];
    intros page_embeddings Hrun; simpl in Hrun.
  - injection Hrun as <-. split; [done|].
    intros i text Hi. by rewrite lookup_nil in Hi.
  - apply bind_OK in Hrun as (embedding & Hemb & Hrun).
    apply bind_OK in Hrun as (rest & Hrest & Hrun). injection Hrun as <-.
    destruct (IH rest Hrest) as [Hlen Hat]. split; [simpl; by rewrite Hlen|].
    intros [|i] text Hi; simpl in Hi.
    + injection Hi as <-. eauto.
    + by apply Hat.
Qed.

Lemma embed_pages_first_failure (before after : list string)
    (text : string) (e : PyError) :
  (forall t, t ∈ before -> exists v, get_embedding t = OK v) ->
  get_embedding text = Raise e ->
  embed_pages get_embedding (before ++ text :: after) = Raise e.
Proof.
  intros Hbefore Ht. induction before as [|t0 before IH]; simpl.
  - by rewrite Ht.
  - destruct (Hbefore t0) as [v ->]; [by left|]. simpl.
    rewrite IH; [done|]. intros t Hin. apply Hbefore. by right.
Qed.

End EmbeddingCellFacts.

(** X14.  Cell 16 keeps the category definitions and their order, and
    pairs each with the provider's answer for its keywords joined by
    single spaces; when the provider fails for a category, the cell
    raises the error of the first such category. *)
Theorem embed_classifications_keeps_definitions
    (get_embedding : string -> result (list Q)) (defs : list CategoryDef) :
  (forall registry,
     embed_classifications get_embedding defs = OK registry ->
     map cat_def registry = defs /\
     forall cat, cat ∈ registry ->
       get_embedding (String.concat " " (def_keywords (cat_def cat)))
         = OK (cat_embedding cat)) /\
  (forall before d after e,
     defs = before ++ d :: after ->
     (forall d', d' ∈ before ->
        exists v,
          get_embedding (String.concat " " (def_keywords d')) = OK v) ->
     get_embedding (String.concat " " (def_keywords d)) = Raise e ->
     embed_classifications get_embedding defs = Raise e).
Proof.
  split.
  - apply embed_classifications_OK.
  - intros before d after e -> Hbefore Hd.
    by apply embed_classifications_first_failure.
Qed.

Lemma embed_classifications_keeps_definitions_witness :
  exists registry,
    embed_classifications constant_embedding classification_defs
      = OK registry /\
    map cat_def registry = classification_defs.
Proof.
  eexists. split; [reflexivity|].
  apply (proj1 (embed_classifications_keeps_definitions constant_embedding
                  classification_defs)).
  reflexivity.
Defined.

(** X15.  Cell 18 returns one embedding per page text, in page order,
    each the provider's answer for that text; when the provider fails for
    a page, the cell raises the error of the first such page. *)
Theorem embed_pages_one_embedding_per_page
    (get_embedding : string -> result (list Q))
    (pages_content : list string) :
  (forall page_embeddings,
     embed_pages get_embedding pages_content = OK page_embeddings ->
     length page_embeddings = length pages_content /\
     forall i text, pages_content !! i = Some text ->
       exists embedding,
         page_embeddings !! i = Some embedding /\
         get_embedding text = OK embedding) /\
  (forall before text after e,
     pages_content = before ++ text :: after ->
     (forall t, t ∈ before -> exists v, get_embedding t = OK v) ->
     get_embedding text = Raise e ->
     embed_pages get_embedding pages_content = Raise e).
Proof.
  split.
  - apply embed_pages_OK.
  - intros before text after e -> Hbefore Ht.
    by apply embed_pages_first_failure.
Qed.

Lemma embed_pages_one_embedding_per_page_witness :
  exists page_embeddings,
    embed_pages constant_embedding ["a"; "b"] = OK page_embeddings /\
    length page_embeddings = 2.
Proof.
  eexists. split; [reflexivity|].
  apply (proj1 (embed_pages_one_embedding_per_page constant_embedding
                  ["a"; "b"])).
  reflexivity.
Defined.



Lemma expected_embeddings_has_page (i : nat) :
  i < 13 ->
  exists e, get_classification expected_embeddings (Z.of_nat i) = OK e.
Proof.
  intros Hi.
  do 13 (destruct i as [|i]; [eexists; vm_compute; reflexivity|]).
  lia.
Qed.

Lemma calculate_accuracy_returns (expected actual : Classifications) :
  classifications actual <> [] ->
  (forall c, c ∈ classifications actual ->
     exists e, get_classification expected (page_number c) = OK e) ->
  exists report, calculate_accuracy expected actual = OK report.
Proof.
  intros Hne Hfound. unfold calculate_accuracy.
  destruct (accuracy_loop_returns expected (classifications actual) ∅ Hfound)
    as [accuracy Hloop].
  pose proof (accuracy_loop_indicators expected (classifications actual)
                [] ∅ accuracy Hloop (indicators_of_empty expected)) as Hinv.
  simpl in Hinv. rewrite Hloop. simpl.
  rewrite (py_truediv_OK _ _ (indicators_of_size _ _ _ Hinv Hne)). simpl.
  eauto.
Qed.

(** X17.  When the layout analysis and the embedding provider answer,
    the document has at most 13 pages, the first page has an embedding
    that is not empty and every page with an embedding has the length of
    the category embeddings, the classification run of the similarity
    notebook returns a record; and when that record serialises and the
    display cell goes through, the notebook ends normally with the
    serialised record in its result file. *)
Theorem embeddings_notebook_completes_when_providers_answer
    (working_dir : string) (analyze_pages : string -> result (list string))
    (get_embedding : string -> result (list Q))
    (cosine : list Q -> list Q -> Q) (str_float : Q -> string)
    (total_elapsed : Q)
    (to_json : DataClassificationResult -> result string)
    (display_outputs : Classifications -> gmap DictKey Q -> result unit)
    (fs : gmap string string)
    (pages_content : list string) (registry : list Category)
    (first : list Q) (rest : list (list Q)) :
  analyze_pages (fname working_dir) = OK pages_content ->
  embed_classifications get_embedding classification_defs = OK registry ->
  embed_pages get_embedding pages_content = OK (first :: rest) ->
  first <> [] ->
  pages_fit registry (first :: rest) ->
  length pages_content <= 13 ->
  exists doc accuracy,
    let record := {| dcr_classification := doc;
                     dcr_accuracy := accuracy;
                     dcr_execution_time := total_elapsed |} in
    classify_pages cosine str_float registry similarity_threshold
      (first :: rest) = OK doc /\
    calculate_accuracy expected_embeddings doc = OK accuracy /\
    embeddings_classification_run working_dir analyze_pages get_embedding
      cosine str_float total_elapsed = OK record /\
    forall content,
      to_json record = OK content ->
      display_outputs doc accuracy = OK tt ->
      embeddings_notebook working_dir analyze_pages get_embedding cosine
        str_float total_elapsed to_json display_outputs fs
      = (<[embeddings_output_path working_dir := content]> fs, OK tt).
Proof.
  intros Hana Hreg Hemb Hfirst Hfit Hlen.
  assert (registry <> []) as Hne.
  { destruct (embed_classifications_OK _ _ _ Hreg) as [Hdefs _].
    intros ->. discriminate Hdefs. }
  destruct (classify_pages_returns cosine str_float registry
              similarity_threshold first rest Hne Hfirst Hfit)
    as [doc Hcls].
  destruct (embed_pages_OK _ _ _ Hemb) as [Hlen_emb _].
  destruct (classify_pages_inv _ _ _ _ _ _ Hcls) as [Hlen_doc Hrecs].
  destruct (calculate_accuracy_returns expected_embeddings doc)
    as [accuracy Hacc].
  { intros Hnil. rewrite Hnil in Hlen_doc. discriminate Hlen_doc. }
  { intros c Hc. apply list_elem_of_lookup in Hc as [i Hi].
    assert (i < length (first :: rest)) as Hlt
      by (rewrite <- Hlen_doc; by apply lookup_lt_Some in Hi).
    pose proof Hlt as Hlt'.
    apply lookup_lt_is_Some_2 in Hlt' as [page_emb Hpage].
    destruct (Hrecs i page_emb Hpage) as (ei & ei' & r & Hr & Hstep).
    rewrite Hi in Hr. injection Hr as <-.
    apply classify_page_inv in Hstep as [-> _].
    apply expected_embeddings_has_page. lia. }
  exists doc, accuracy. simpl.
  assert (embeddings_classification_run working_dir analyze_pages
            get_embedding cosine str_float total_elapsed
          = OK {| dcr_classification := doc;
                  dcr_accuracy := accuracy;
                  dcr_execution_time := total_elapsed |}) as Hrun.
  { unfold embeddings_classification_run.
    rewrite Hreg, Hana. cbn [bind]. rewrite Hemb. cbn [bind].
    rewrite Hcls. cbn [bind]. rewrite Hacc. reflexivity. }
  split; [done|]. split; [done|]. split; [done|].
  intros content Hjson Hdisplay.
  pose proof (embeddings_notebook_outcome working_dir analyze_pages
                get_embedding cosine str_float total_elapsed to_json
                display_outputs fs) as Hout.
  rewrite Hrun, Hjson in Hout. simpl in Hout.
  by rewrite Hout, Hdisplay.
Qed.

Lemma embeddings_notebook_completes_when_providers_answer_witness :
  exists content,
    embeddings_notebook "/repo" one_page_analyze_pages constant_embedding
      dot sample_str 1 sample_to_json sample_display ∅
    = ({[ embeddings_output_path "/repo" := content ]}, OK tt).
Proof.
  destruct (embeddings_notebook_completes_when_providers_answer "/repo"
              one_page_analyze_pages constant_embedding dot sample_str 1%Q
              sample_to_json sample_display ∅
              ["Policy number 12345"]
              (map (fun d => {| cat_def := d; cat_embedding := [1%Q] |})
                 classification_defs)
              [1%Q] [])
    as (doc & accuracy & _ & _ & _ & Hend).
  - reflexivity.
  - reflexivity.
  - reflexivity.
  - discriminate.
  - apply Forall_cons. split; [right; repeat constructor | constructor].
  - simpl. lia.
  - destruct (sample_to_json {| dcr_classification := doc;
                                dcr_accuracy := accuracy;
                                dcr_execution_time := 1 |})
      as [content|e] eqn:Hjson; [|discriminate Hjson].
    exists content. apply Hend; reflexivity.
Defined.

(** ** The vision notebook: request content and completion *)

Lemma append_page_images_map (Image : Type) (png_base64 : Image -> string)
    (pages : list Image) :
  forall user_content,
    append_page_images Image png_base64 pages user_content
    = user_content
      ++ map (fun page => ImageUrlPart (data_url_prefix ++ png_base64 page))
           pages.
Proof.
  induction pages as [|page pages IH]; intros user_content; simpl.
  - by rewrite app_nil_r.
  - rewrite IH. by rewrite <- app_assoc.
Qed.

Lemma prefix_append (p s : string) : String.prefix p (p ++ s) = true.
Proof.
  induction p as [|ch p IH].
  - by destruct s.
  - change (String.prefix (String ch p) (String ch (p ++ s)) = true).
    simpl. destruct (Ascii.ascii_dec ch ch); [exact IH | done].
Qed.

(** X18.  The request content of the vision notebook is one text part
    followed by exactly one image part per page, in page order; the url of
    each image part is the base64 of its page behind the PNG data-URL
    prefix. *)
Theorem user_content_one_image_per_page
    (Image : Type) (json_dumps : list CategoryDef -> string)
    (png_base64 : Image -> string) (pages : list Image) :
  length (build_user_content Image json_dumps png_base64 pages)
    = S (length pages) /\
  build_user_content Image json_dumps png_base64 pages !! 0
    = Some (TextPart (classifications_text json_dumps)) /\
  (forall i page, pages !! i = Some page ->
     build_user_content Image json_dumps png_base64 pages !! S i
       = Some (ImageUrlPart (data_url_prefix ++ png_base64 page))) /\
  (forall i part,
     build_user_content Image json_dumps png_base64 pages !! S i
       = Some part ->
     exists url,
       part = ImageUrlPart url /\ String.prefix data_url_prefix url = true).
Proof.
  unfold build_user_content. rewrite append_page_images_map. simpl.
  split; [by rewrite length_map|]. split; [done|]. split.
  - intros i page Hi. rewrite list_lookup_fmap. by rewrite Hi.
  - intros i part Hi. rewrite list_lookup_fmap in Hi.
    destruct (pages !! i) as [page|]; [|discriminate].
    injection Hi as <-. eexists. split; [done|]. apply prefix_append.
Qed.

Lemma user_content_one_image_per_page_witness :
  build_user_content nat (fun _ => "[]") (fun n => pretty n) [7; 8] !! 2
  = Some (ImageUrlPart (data_url_prefix ++ pretty 8)).
Proof.
  apply (proj1 (proj2 (proj2 (user_content_one_image_per_page nat
                                 (fun _ => "[]") (fun n => pretty n)
                                 [7; 8]))) 1 8).
  reflexivity.
Defined.

(** X19.  A run of the vision notebook that ends normally has received a
    parsed answer with at least one record, all of whose page numbers lie
    between 1 and 13, and has written that answer; when the parsed message
    is [None] the run raises [AttributeError] and leaves the file system
    as it was. *)
Theorem openai_notebook_needs_parsed_answer_within_expected_pages
    (working_dir : string) (Image : Type)
    (convert_from_bytes : string -> result (list Image)) (Choice : Type)
    (parse_completion :
       list CategoryDef -> list Image ->
       result (option Classifications * Choice))
    (evaluate_confidence_call :
       Classifications -> Choice -> result (gmap DictKey (option Q)))
    (total_elapsed : Q)
    (to_json : DataClassificationResult -> result string)
    (display_outputs :
       Classifications -> gmap DictKey Q -> gmap DictKey (option Q) ->
       result unit)
    (fs : gmap string string) :
  ((openai_notebook working_dir Image convert_from_bytes Choice
      parse_completion evaluate_confidence_call total_elapsed to_json
      display_outputs fs).2
   = OK tt ->
   exists pages choice doc accuracy content,
     convert_from_bytes (fname working_dir) = OK pages /\
     parse_completion classification_defs pages = OK (Some doc, choice) /\
     classifications doc <> [] /\
     (forall c, c ∈ classifications doc -> (1 <= page_number c <= 13)%Z) /\
     to_json {| dcr_classification := doc;
                dcr_accuracy := accuracy;
                dcr_execution_time := total_elapsed |} = OK content /\
     (openai_notebook working_dir Image convert_from_bytes Choice
        parse_completion evaluate_confidence_call total_elapsed to_json
        display_outputs fs).1
     = <[openai_output_path working_dir := content]> fs) /\
  (forall pages choice,
     convert_from_bytes (fname working_dir) = OK pages ->
     parse_completion classification_defs pages = OK (None, choice) ->
     openai_notebook working_dir Image convert_from_bytes Choice
       parse_completion evaluate_confidence_call total_elapsed to_json
       display_outputs fs
     = (fs, Raise (AttributeError "classifications"))).
Proof.
  split.
  - intros Hok.
    destruct (openai_notebook_normal_end working_dir Image
                convert_from_bytes Choice parse_completion
                evaluate_confidence_call total_elapsed to_json
                display_outputs fs Hok)
      as (record & confidence & content & Hrun & Hjson & _ & _ & Hfs).
    destruct (openai_classification_run_OK _ _ _ _ _ _ _ _ _ Hrun)
      as (pages & choice & doc & accuracy
          & Hconv & Hparse & Hacc & _ & ->).
    exists pages, choice, doc, accuracy, content.
    split; [done|]. split; [done|]. split.
    { intros Hnil. destruct doc as [cs]. simpl in Hnil. subst cs.
      discriminate Hacc. }
    split; [|done].
    intros c Hc.
    destruct (calculate_accuracy_found _ _ _ Hacc c Hc) as (e & He & <-).
    simpl in He.
    repeat (apply elem_of_cons in He as [->|He]; [simpl; lia|]).
    by apply elem_of_nil in He.
  - intros pages choice Hconv Hparse.
    pose proof (openai_notebook_outcome working_dir Image
                  convert_from_bytes Choice parse_completion
                  evaluate_confidence_call total_elapsed to_json
                  display_outputs fs) as Hout.
    assert (openai_classification_run working_dir Image convert_from_bytes
              Choice parse_completion evaluate_confidence_call
              total_elapsed
            = Raise (AttributeError "classifications")) as Hrun.
    { unfold openai_classification_run. rewrite Hconv. simpl.
      rewrite Hparse. reflexivity. }
    by rewrite Hrun in Hout.
Qed.

Lemma openai_notebook_needs_parsed_answer_within_expected_pages_witness :
  openai_notebook "/repo" nat (fun _ => OK [1; 2]) unit
    (fun _ _ => OK (None, tt)) (fun _ _ => OK ∅) 1 sample_to_json
    sample_display_confidence ∅
  = (∅, Raise (AttributeError "classifications")).
Proof.
  apply (proj2 (openai_notebook_needs_parsed_answer_within_expected_pages
                  "/repo" nat (fun _ => OK [1; 2]) unit
                  (fun _ _ => OK (None, tt)) (fun _ _ => OK ∅) 1%Q
                  sample_to_json sample_display_confidence ∅) [1; 2] tt);
    reflexivity.
Defined.

(** X20.  What the last cell leaves behind when it raises after the
    classification run has returned.  In both notebooks a serialiser that
    raises leaves the result file open and empty, and a display that
    raises leaves the complete result file; in the vision notebook a
    confidence report without the key ["_overall"] raises [KeyError]
    after the complete file is written. *)
Theorem last_cell_failures_leave_result_file
    (working_dir : string) (total_elapsed : Q)
    (to_json : DataClassificationResult -> result string)
    (fs : gmap string string) :
  (forall (analyze_pages : string -> result (list string))
          (get_embedding : string -> result (list Q))
          (cosine : list Q -> list Q -> Q) (str_float : Q -> string)
          (display_outputs :
             Classifications -> gmap DictKey Q -> result unit)
          (record : DataClassificationResult),
     embeddings_classification_run working_dir analyze_pages get_embedding
       cosine str_float total_elapsed = OK record ->
     (forall e, to_json record = Raise e ->
        embeddings_notebook working_dir analyze_pages get_embedding cosine
          str_float total_elapsed to_json display_outputs fs
        = (<[embeddings_output_path working_dir := ""]> fs, Raise e)) /\
     (forall content e,
        to_json record = OK content ->
        display_outputs (dcr_classification record) (dcr_accuracy record)
          = Raise e ->
        embeddings_notebook working_dir analyze_pages get_embedding cosine
          str_float total_elapsed to_json display_outputs fs
        = (<[embeddings_output_path working_dir := content]> fs, Raise e)))
  /\
  (forall (Image : Type)
          (convert_from_bytes : string -> result (list Image))
          (Choice : Type)
          (parse_completion :
             list CategoryDef -> list Image ->
             result (option Classifications * Choice))
          (evaluate_confidence_call :
             Classifications -> Choice -> result (gmap DictKey (option Q)))
          (display_outputs :
             Classifications -> gmap DictKey Q ->
             gmap DictKey (option Q) -> result unit)
          (record : DataClassificationResult)
          (confidence : gmap DictKey (option Q)),
     openai_classification_run working_dir Image convert_from_bytes Choice
       parse_completion evaluate_confidence_call total_elapsed
     = OK (record, confidence) ->
     (forall e, to_json record = Raise e ->
        openai_notebook working_dir Image convert_from_bytes Choice
          parse_completion evaluate_confidence_call total_elapsed to_json
          display_outputs fs
        = (<[openai_output_path working_dir := ""]> fs, Raise e)) /\
     (forall content,
        to_json record = OK content ->
        confidence !! KStr "_overall" = None ->
        openai_notebook working_dir Image convert_from_bytes Choice
          parse_completion evaluate_confidence_call total_elapsed to_json
          display_outputs fs
        = (<[openai_output_path working_dir := content]> fs,
           Raise (KeyError "_overall"))) /\
     (forall content e,
        to_json record = OK content ->
        is_Some (confidence !! KStr "_overall") ->
        display_outputs (dcr_classification record) (dcr_accuracy record)
          confidence = Raise e ->
        openai_notebook working_dir Image convert_from_bytes Choice
          parse_completion evaluate_confidence_call total_elapsed to_json
          display_outputs fs
        = (<[openai_output_path working_dir := content]> fs, Raise e))).
Proof.
  split.
  - intros analyze_pages get_embedding cosine str_float display_outputs
      record Hrun.
    pose proof (embeddings_notebook_outcome working_dir analyze_pages
                  get_embedding cosine str_float total_elapsed to_json
                  display_outputs fs) as Hout.
    rewrite Hrun in Hout. split.
    + intros e Hjson. by rewrite Hjson in Hout.
    + intros content e Hjson Hdisplay. rewrite Hjson in Hout.
      by rewrite Hout, Hdisplay.
  - intros Image convert_from_bytes Choice parse_completion
      evaluate_confidence_call display_outputs record confidence Hrun.
    pose proof (openai_notebook_outcome working_dir Image
                  convert_from_bytes Choice parse_completion
                  evaluate_confidence_call total_elapsed to_json
                  display_outputs fs) as Hout.
    rewrite Hrun in Hout. simpl in Hout. split; [|split].
    + intros e Hjson. by rewrite Hjson in Hout.
    + intros content Hjson Hkey. rewrite Hjson in Hout.
      rewrite Hout. unfold dict_item. by rewrite Hkey.
    + intros content e Hjson [overall Hkey] Hdisplay.
      rewrite Hjson in Hout. rewrite Hout. unfold dict_item.
      rewrite Hkey. simpl. by rewrite Hdisplay.
Qed.

(** A one-page document whose record does not serialise leaves an empty
    result file; a vision answer whose confidence report is empty leaves
    the complete file and raises [KeyError]. *)
Lemma last_cell_failures_leave_result_file_witness :
  embeddings_notebook "/repo" one_page_analyze_pages constant_embedding dot
    sample_str 1 (fun _ => Raise ValueError) sample_display ∅
  = ({[ embeddings_output_path "/repo" := "" ]}, Raise ValueError) /\
  exists content,
    openai_notebook "/repo" nat (fun _ => OK [1]) unit
      (fun _ _ => OK (Some sample_vision_answer, tt)) (fun _ _ => OK ∅) 1
      sample_to_json sample_display_confidence ∅
    = ({[ openai_output_path "/repo" := content ]},
       Raise (KeyError "_overall")).
Proof.
  split.
  - destruct (embeddings_classification_run "/repo" one_page_analyze_pages
                constant_embedding dot sample_str 1)
      as [record|e] eqn:Hrun; [|vm_compute in Hrun; discriminate Hrun].
    apply (proj1 (proj1 (last_cell_failures_leave_result_file "/repo" 1%Q
                           (fun _ => Raise ValueError) ∅)
                    one_page_analyze_pages constant_embedding dot
                    sample_str sample_display record Hrun)).
    reflexivity.
  - destruct (openai_classification_run "/repo" nat (fun _ => OK [1]) unit
                (fun _ _ => OK (Some sample_vision_answer, tt))
                (fun _ _ => OK ∅) 1)
      as [[record confidence]|e] eqn:Hrun;
      [|vm_compute in Hrun; discriminate Hrun].
    destruct (sample_to_json record) as [content|e] eqn:Hjson;
      [|discriminate Hjson].
    exists content.
    apply (proj1 (proj2 (proj2 (last_cell_failures_leave_result_file
                                  "/repo" 1%Q sample_to_json ∅)
                           nat (fun _ => OK [1]) unit
                           (fun _ _ => OK (Some sample_vision_answer, tt))
                           (fun _ _ => OK ∅) sample_display_confidence
                           record confidence Hrun))).
    + exact Hjson.
    + unfold openai_classification_run in Hrun. simpl in Hrun.
      destruct (calculate_accuracy expected_openai sample_vision_answer);
        [|discriminate Hrun].
      simpl in Hrun. injection Hrun as _ <-. reflexivity.
Defined.
